(** * Trading_Team: the account ledger, embedded and verified

    The repository holds several near-duplicate ledgers:

    - class [Account] of [output/accounts.py], the module the Gradio front
      end ([output/app.py]) imports;
    - class [Account] declared at the top of [test_accounts.py], a copy that
      validates no signs and spells the tags of its records in lower case;
    - class [Account] declared at the top of [output/test_accounts.py], a
      partial copy with [deposit] and [buy_shares] only, opened with an
      initial deposit;
    - class [TradingAccount] of [trading.py].  Only its test suite
      ([output/test_trading.py]) is present, so this ledger ([Trading]) is
      modelled from the specification.

    The ledgers of the sources are embedded at two levels.

    - [Accounts], [TestAccounts] and [App] compute with exact amounts: a
      Python [float] is a rational ([Q]) and a [dict] keyed by symbols a
      [gmap string _].  They carry the properties that do not hinge on how
      an amount is rounded: which calls are refused, what a refused call
      leaves behind, the share counts, the history as a log of the calls.
    - [PyAccounts], [PyTestAccounts], [PyOutputTestAccounts] and [PyApp]
      compute as Python does: a [float] is a binary64 float, with its
      rounding, its infinities and its NaN; [float * int] first converts the
      [int] and raises [OverflowError] when it has no float; a [dict] keeps
      its keys in insertion order; each record carries the tag its file
      writes.  They carry every property about amounts of money.

    Conventions of the embedding.

    - A Python [int] is a [Z]; a [str] is a [string].
    - A method mutates [self] in place and may raise.  A method body is a
      function from the object before the call to the object after the call
      together with the way the call ended; a [raise] keeps whatever the
      statements before it have already written to the object. *)

From Stdlib Require Import Ascii String QArith Lqa Floats.
From Stdlib Require Uint63.
From stdpp Require Import gmap strings list fin_maps.

Local Open Scope Q_scope.

(** ** Exceptions and method bodies *)

(** [ValueError], [Exception] and [KeyError] are the built-in classes the
    [Account] ledgers raise themselves and [OverflowError] is the one Python
    raises when an [int] that is too large meets a [float]; the others are
    the error taxonomy of the specification, raised by [TradingAccount]. *)
Inductive exn : Type :=
| ValueError (msg : string)
| Exception (msg : string)
| KeyError (key : string)
| OverflowError (msg : string)
| InvalidAmountError
| InvalidQuantityError
| InsufficientFundsError (available requested : Q)
| InsufficientSharesError (available requested : Z)
| UnknownSymbolError (symbol : string).

Inductive outcome (A : Type) : Type :=
| Returned (a : A)
| Raised (e : exn).
Arguments Returned {A} a.
Arguments Raised {A} e.

Definition method (S A : Type) : Type := S → S * outcome A.

Section Method.
Context {S : Type}.

Definition ret {A} (a : A) : method S A := λ self, (self, Returned a).

Definition bind {A B} (f : A → method S B) (m : method S A) : method S B :=
  λ self,
    match m self with
    | (self', Returned a) => f a self'
    | (self', Raised e) => (self', Raised e)
    end.

Definition raise {A} (e : exn) : method S A := λ self, (self, Raised e).

Definition get : method S S := λ self, (self, Returned self).

Definition modify (f : S → S) : method S unit := λ self, (f self, Returned tt).

(** [if c: raise e] *)
Definition raise_if (c : bool) (e : exn) : method S unit :=
  if c then raise e else ret tt.
End Method.

#[global] Instance method_ret {S} : MRet (method S) := @ret S.
#[global] Instance method_bind {S} : MBind (method S) := @bind S.

(** The object after a call, and whether the call returned normally. *)
Definition after {S A} (r : S * outcome A) : S := fst r.

Definition succeeded {S A} (r : S * outcome A) : bool :=
  match snd r with Returned _ => true | Raised _ => false end.

Definition raised {S A} (r : S * outcome A) : option exn :=
  match snd r with Returned _ => None | Raised e => Some e end.

(** ** Numeric comparisons of the source *)

(** [x <= y] and [x < y] on floats. *)
Definition Qleb (x y : Q) : bool := Qle_bool x y.
Definition Qltb (x y : Q) : bool := negb (Qle_bool y x).

(** [price * quantity], a float times an int. *)
Definition scale (price : Q) (quantity : Z) : Q := price * inject_Z quantity.

(** ** Transaction records

    The ledgers append dictionaries tagged by their ['type'] entry:
    [{'type': 'Deposit', 'amount': a}], [{'type': 'Withdrawal', 'amount': a}],
    [{'type': 'Buy', 'symbol': s, 'quantity': q}] and
    [{'type': 'Sell', 'symbol': s, 'quantity': q}].  [test_accounts.py] spells
    the tags ['deposit'], ['withdraw'], ['buy'] and ['sell']. *)
Inductive transaction : Type :=
| Deposit (amount : Q)
| Withdrawal (amount : Q)
| Buy (symbol : string) (quantity : Z)
| Sell (symbol : string) (quantity : Z).

(** The calls a client can make on a ledger. *)
Inductive call : Type :=
| CallDeposit (amount : Q)
| CallWithdraw (amount : Q)
| CallBuy (symbol : string) (quantity : Z)
| CallSell (symbol : string) (quantity : Z).

(** ** [output/accounts.py] *)

Module Accounts.

Record Account : Type := mkAccount {
  username : string;
  balance : Q;
  holdings : gmap string Z;
  transactions : list transaction
}.

(** [Account(username)] *)
Definition init (username : string) : Account :=
  {| username := username; balance := 0; holdings := ∅; transactions := [] |}.

Definition set_balance (b : Q) (self : Account) : Account :=
  {| username := username self; balance := b;
     holdings := holdings self; transactions := transactions self |}.

Definition set_holdings (h : gmap string Z) (self : Account) : Account :=
  {| username := username self; balance := balance self;
     holdings := h; transactions := transactions self |}.

(** [self.transactions.append(t)] *)
Definition append (t : transaction) (self : Account) : Account :=
  {| username := username self; balance := balance self;
     holdings := holdings self; transactions := transactions self ++ [t] |}.

Definition prices : gmap string Q :=
  <["GOOGL" := 2800]> (<["TSLA" := 700]> (<["AAPL" := 150]> ∅)).

(** [prices.get(symbol, 0.0)] *)
Definition get_share_price (symbol : string) : Q :=
  default 0 (prices !! symbol).

Definition create_account (name : string) : method Account unit :=
  modify (λ _, init name).

Definition deposit (amount : Q) : method Account unit :=
  raise_if (Qleb amount 0)
    (ValueError "Deposit amount must be greater than zero.");;
  modify (λ self, set_balance (balance self + amount) self);;
  modify (append (Deposit amount)).

Definition withdraw (amount : Q) : method Account unit :=
  raise_if (Qleb amount 0)
    (ValueError "Withdrawal amount must be greater than zero.");;
  self ← get;
  raise_if (Qltb (balance self - amount) 0)
    (ValueError "Insufficient funds to withdraw the specified amount.");;
  modify (λ self, set_balance (balance self - amount) self);;
  modify (append (Withdrawal amount)).

Definition buy_shares (symbol : string) (quantity : Z) : method Account unit :=
  raise_if (quantity <=? 0)%Z
    (ValueError "Quantity must be greater than zero.");;
  let cost := scale (get_share_price symbol) quantity in
  self ← get;
  raise_if (Qltb (balance self) cost)
    (ValueError "Insufficient funds to buy shares.");;
  modify (λ self, set_balance (balance self - cost) self);;
  modify (λ self,
    match holdings self !! symbol with
    | Some held => set_holdings (<[symbol := (held + quantity)%Z]> (holdings self)) self
    | None => set_holdings (<[symbol := quantity]> (holdings self)) self
    end);;
  modify (append (Buy symbol quantity)).

(** [self.holdings[symbol] -= quantity]: the read raises [KeyError] when
    the symbol is not held. *)
Definition holdings_isub (symbol : string) (quantity : Z) : method Account unit :=
  self ← get;
  match holdings self !! symbol with
  | None => raise (KeyError symbol)
  | Some held =>
      modify (set_holdings (<[symbol := (held - quantity)%Z]> (holdings self)))
  end.

(** [if self.holdings[symbol] == 0: del self.holdings[symbol]] *)
Definition holdings_del_if_zero (symbol : string) : method Account unit :=
  self ← get;
  match holdings self !! symbol with
  | None => raise (KeyError symbol)
  | Some held =>
      if (held =? 0)%Z
      then modify (set_holdings (delete symbol (holdings self)))
      else ret tt
  end.

Definition sell_shares (symbol : string) (quantity : Z) : method Account unit :=
  raise_if (quantity <=? 0)%Z
    (ValueError "Quantity must be greater than zero.");;
  self ← get;
  raise_if
    match holdings self !! symbol with
    | None => true
    | Some held => (held <? quantity)%Z
    end
    (ValueError "Not enough shares to sell.");;
  let proceeds := scale (get_share_price symbol) quantity in
  modify (λ self, set_balance (balance self + proceeds) self);;
  holdings_isub symbol quantity;;
  holdings_del_if_zero symbol;;
  modify (append (Sell symbol quantity)).

Definition get_holdings (self : Account) : gmap string Z := holdings self.

Definition get_transaction_history (self : Account) : list transaction :=
  transactions self.

(** One client call, and a whole session: a failing call leaves the object
    as the raise found it and the session goes on. *)
Definition perform (c : call) : method Account unit :=
  match c with
  | CallDeposit amount => deposit amount
  | CallWithdraw amount => withdraw amount
  | CallBuy symbol quantity => buy_shares symbol quantity
  | CallSell symbol quantity => sell_shares symbol quantity
  end.

Fixpoint run (calls : list call) (self : Account) : Account :=
  match calls with
  | [] => self
  | c :: rest => run rest (after (perform c self))
  end.

(** The number of calls of a session that returned normally. *)
Fixpoint successes (calls : list call) (self : Account) : nat :=
  match calls with
  | [] => 0
  | c :: rest =>
      (if succeeded (perform c self) then 1 else 0)%nat
      + successes rest (after (perform c self))
  end.

(** The calls of a session that returned normally, in order. *)
Fixpoint performed (calls : list call) (self : Account) : list call :=
  match calls with
  | [] => []
  | c :: rest =>
      if succeeded (perform c self)
      then c :: performed rest (after (perform c self))
      else performed rest (after (perform c self))
  end.

Definition reachable (self : Account) : Prop :=
  ∃ name calls, self = run calls (init name).

End Accounts.

(** ** [test_accounts.py]: the ledger declared next to its unit tests *)

Module TestAccounts.

Record Account : Type := mkAccount {
  user_id : string;
  balance : Q;
  holdings : gmap string Z;
  transactions : list transaction
}.

(** [Account(user_id)] *)
Definition init (user_id : string) : Account :=
  {| user_id := user_id; balance := 0; holdings := ∅; transactions := [] |}.

Definition set_balance (b : Q) (self : Account) : Account :=
  {| user_id := user_id self; balance := b;
     holdings := holdings self; transactions := transactions self |}.

Definition set_holdings (h : gmap string Z) (self : Account) : Account :=
  {| user_id := user_id self; balance := balance self;
     holdings := h; transactions := transactions self |}.

Definition append (t : transaction) (self : Account) : Account :=
  {| user_id := user_id self; balance := balance self;
     holdings := holdings self; transactions := transactions self ++ [t] |}.

Definition prices : gmap string Q :=
  <["GOOGL" := 2800]> (<["TSLA" := 700]> (<["AAPL" := 150]> ∅)).

Definition get_share_price (symbol : string) : Q :=
  default 0 (prices !! symbol).

Definition deposit (amount : Q) : method Account unit :=
  modify (λ self, set_balance (balance self + amount) self);;
  modify (append (Deposit amount)).

Definition withdraw (amount : Q) : method Account unit :=
  self ← get;
  raise_if (Qltb (balance self - amount) 0) (Exception "Insufficient funds");;
  modify (λ self, set_balance (balance self - amount) self);;
  modify (append (Withdrawal amount)).

Definition buy_share (symbol : string) (quantity : Z) : method Account unit :=
  let total_cost := scale (get_share_price symbol) quantity in
  self ← get;
  raise_if (Qltb (balance self) total_cost)
    (Exception "Insufficient funds to buy shares");;
  modify (λ self,
    set_holdings
      (<[symbol := (default 0%Z (holdings self !! symbol) + quantity)%Z]> (holdings self))
      self);;
  modify (λ self, set_balance (balance self - total_cost) self);;
  modify (append (Buy symbol quantity)).

(** [self.holdings[symbol] -= quantity] *)
Definition holdings_isub (symbol : string) (quantity : Z) : method Account unit :=
  self ← get;
  match holdings self !! symbol with
  | None => raise (KeyError symbol)
  | Some held =>
      modify (set_holdings (<[symbol := (held - quantity)%Z]> (holdings self)))
  end.

(** [if self.holdings[symbol] == 0: del self.holdings[symbol]] *)
Definition holdings_del_if_zero (symbol : string) : method Account unit :=
  self ← get;
  match holdings self !! symbol with
  | None => raise (KeyError symbol)
  | Some held =>
      if (held =? 0)%Z
      then modify (set_holdings (delete symbol (holdings self)))
      else ret tt
  end.

Definition sell_share (symbol : string) (quantity : Z) : method Account unit :=
  self ← get;
  raise_if (default 0%Z (holdings self !! symbol) <? quantity)%Z
    (Exception "Not enough shares to sell");;
  let total_earnings := scale (get_share_price symbol) quantity in
  holdings_isub symbol quantity;;
  holdings_del_if_zero symbol;;
  modify (λ self, set_balance (balance self + total_earnings) self);;
  modify (append (Sell symbol quantity)).

Definition get_holdings (self : Account) : gmap string Z := holdings self.
Definition get_transactions (self : Account) : list transaction := transactions self.
Definition get_current_balance (self : Account) : Q := balance self.

Definition perform (c : call) : method Account unit :=
  match c with
  | CallDeposit amount => deposit amount
  | CallWithdraw amount => withdraw amount
  | CallBuy symbol quantity => buy_share symbol quantity
  | CallSell symbol quantity => sell_share symbol quantity
  end.

Fixpoint run (calls : list call) (self : Account) : Account :=
  match calls with
  | [] => self
  | c :: rest => run rest (after (perform c self))
  end.

Fixpoint successes (calls : list call) (self : Account) : nat :=
  match calls with
  | [] => 0
  | c :: rest =>
      (if succeeded (perform c self) then 1 else 0)%nat
      + successes rest (after (perform c self))
  end.

(** The calls of a session that returned normally, in order. *)
Fixpoint performed (calls : list call) (self : Account) : list call :=
  match calls with
  | [] => []
  | c :: rest =>
      if succeeded (perform c self)
      then c :: performed rest (after (perform c self))
      else performed rest (after (perform c self))
  end.

Definition reachable (self : Account) : Prop :=
  ∃ name calls, self = run calls (init name).

End TestAccounts.

(** ** [output/app.py]: the account of the front end and its history view

    The callbacks act on one module-level [account = Account("User")]; here
    they are method bodies on that object. *)

Module App.

Definition account : Accounts.Account := Accounts.init "User".

Definition create_account (username : string) : method Accounts.Account string :=
  Accounts.create_account username;;
  ret "Account created successfully!".

(** [return transactions if transactions else "No transactions."] *)
Definition get_transactions : method Accounts.Account (list transaction + string) :=
  self ← get;
  let transactions := Accounts.get_transaction_history self in
  match transactions with
  | [] => ret (inr "No transactions.")
  | _ => ret (inl transactions)
  end.

End App.

(** ** [trading.py]: the strict ledger *)

(** [str.upper()], on the ASCII letters. *)
Definition upper_ascii (c : ascii) : ascii :=
  let n := nat_of_ascii c in
  if ((97 <=? n) && (n <=? 122))%nat then ascii_of_nat (n - 32) else c.

Fixpoint upper (s : string) : string :=
  match s with
  | EmptyString => EmptyString
  | String c rest => String (upper_ascii c) (upper rest)
  end.

Module Trading.

(** Modelled from the spec: the [type] of a [TradeRecord] of the absent
    [trading.py], one of deposit, withdrawal, buy, sell. *)
Inductive trade_type : Type := deposit_t | withdrawal_t | buy_t | sell_t.

(** Modelled from the spec: [Position] of the absent [trading.py], a
    holding of shares in one symbol with its running average cost. *)
Record Position : Type := mkPosition {
  symbol : string;
  shares : Z;
  avg_cost : Q
}.

(** Modelled from the spec: [TradeRecord] of the absent [trading.py]; the
    optional fields are empty for cash movements and [total_amount] is the
    signed cash delta. *)
Record TradeRecord : Type := mkTradeRecord {
  type : trade_type;
  trade_symbol : option string;
  quantity : option Z;
  price : option Q;
  total_amount : Q;
  timestamp : string
}.

(** Modelled from the spec: the state of [TradingAccount] of the absent
    [trading.py]: cash, positions by symbol, and the ordered history. *)
Record Ledger : Type := mkLedger {
  cash : Q;
  positions : gmap string Position;
  history : list TradeRecord
}.

Definition set_cash (c : Q) (self : Ledger) : Ledger :=
  {| cash := c; positions := positions self; history := history self |}.

Definition set_positions (ps : gmap string Position) (self : Ledger) : Ledger :=
  {| cash := cash self; positions := ps; history := history self |}.

Definition append (r : TradeRecord) (self : Ledger) : Ledger :=
  {| cash := cash self; positions := positions self; history := history self ++ [r] |}.

Section Operations.
(** The fixed price table of the oracle and the reading of the clock at
    the time of the call. *)
Variable table : gmap string Q.
Variable now : string.

(** Modelled from the spec: [PriceOracle.quote] of the absent
    [trading.py], strict policy.  The symbol is normalised to upper
    case before the lookup; a symbol outside the table fails with
    [UnknownSymbolError]. *)
Definition quote (sym : string) : method Ledger Q :=
  match table !! upper sym with
  | Some p => ret p
  | None => raise (UnknownSymbolError sym)
  end.

(** Modelled from the spec: [Ledger.deposit] of the absent [trading.py]. *)
Definition deposit (amount : Q) : method Ledger unit :=
  raise_if (Qleb amount 0) InvalidAmountError;;
  modify (λ self, set_cash (cash self + amount) self);;
  modify (append (mkTradeRecord deposit_t None None None amount now)).

(** Modelled from the spec: [Ledger.withdraw] of the absent [trading.py]. *)
Definition withdraw (amount : Q) : method Ledger unit :=
  raise_if (Qleb amount 0) InvalidAmountError;;
  self ← get;
  raise_if (Qltb (cash self) amount) (InsufficientFundsError (cash self) amount);;
  modify (λ self, set_cash (cash self - amount) self);;
  modify (append (mkTradeRecord withdrawal_t None None None (- amount) now)).

(** Modelled from the spec: [Ledger.buy] of the absent [trading.py].  An
    existing position gets the weighted average of its cost basis and
    the new purchase; a new one starts at the purchase price. *)
Definition buy (sym : string) (qty : Z) : method Ledger unit :=
  raise_if (qty <=? 0)%Z InvalidQuantityError;;
  p ← quote sym;
  let cost := scale p qty in
  self ← get;
  raise_if (Qltb (cash self) cost) (InsufficientFundsError (cash self) cost);;
  modify (λ self, set_cash (cash self - cost) self);;
  modify (λ self,
    match positions self !! sym with
    | Some pos =>
        let new_avg_cost :=
          (inject_Z (shares pos) * avg_cost pos + inject_Z qty * p)
          / inject_Z (shares pos + qty) in
        set_positions
          (<[sym := mkPosition sym (shares pos + qty) new_avg_cost]> (positions self))
          self
    | None =>
        set_positions (<[sym := mkPosition sym qty p]> (positions self)) self
    end);;
  modify (append (mkTradeRecord buy_t (Some sym) (Some qty) (Some p) (- cost) now)).

(** Modelled from the spec: [Ledger.sell] of the absent [trading.py].  The
    proceeds use the current quote; the average cost of what is left is
    not touched, and a position that reaches zero shares is removed. *)
Definition sell (sym : string) (qty : Z) : method Ledger unit :=
  raise_if (qty <=? 0)%Z InvalidQuantityError;;
  self ← get;
  match positions self !! sym with
  | None => raise (UnknownSymbolError sym)
  | Some pos =>
      raise_if (shares pos <? qty)%Z (InsufficientSharesError (shares pos) qty);;
      p ← quote sym;
      let proceeds := scale p qty in
      modify (λ self, set_cash (cash self + proceeds) self);;
      modify (λ self,
        if (shares pos - qty =? 0)%Z
        then set_positions (delete sym (positions self)) self
        else
          set_positions
            (<[sym := mkPosition sym (shares pos - qty) (avg_cost pos)]> (positions self))
            self);;
      modify (append (mkTradeRecord sell_t (Some sym) (Some qty) (Some p) proceeds now))
  end.
End Operations.

End Trading.

(** * The ledgers as Python runs them

    The modules above compute with exact amounts.  The modules below follow
    the numbers of Python: an amount is a binary64 [float], whose operations
    round to nearest, ties to even, and can yield an infinity or a NaN; an
    [int] that meets a [float] is first converted to the nearest [float],
    which raises [OverflowError] when there is none; a [dict] keeps its keys
    in insertion order; and each record of a history carries the tag its
    file writes. *)

(** ** Python numbers *)

(** [float(n)] for an [int]: the nearest binary64, ties to even, and no
    result ([OverflowError]) when that is not finite. *)
Definition float_of_int (n : Z) : option float :=
  let f := SF2Prim (binary_normalize prec emax n 0 false) in
  if is_finite f then Some f else None.

(** A float that is zero or positive, and neither an infinity nor a NaN;
    a float that is positive and finite. *)
Definition nonneg_finite (x : spec_float) : Prop :=
  match x with
  | S754_zero false | S754_finite false _ _ => True
  | _ => False
  end.

Definition sign_kept (sx : bool) (x : spec_float) : Prop :=
  match x with
  | S754_zero s | S754_infinity s | S754_finite s _ _ => s = sx
  | S754_nan => False
  end.

(** A float that is not below zero: a zero, a positive float, [+inf] or a
    NaN. *)
Definition not_negative (x : spec_float) : Prop :=
  match x with
  | S754_infinity true | S754_finite true _ _ => False
  | _ => True
  end.

(** A float that is not zero and carries the sign [sx]: a finite float
    other than a zero, or an infinity. *)
Definition strictly_signed (sx : bool) (x : spec_float) : Prop :=
  match x with
  | S754_infinity s | S754_finite s _ _ => s = sx
  | _ => False
  end.

Definition positive_finite (x : float) : bool :=
  ((0 <? x) && (x <? infinity))%float.

(** The rational a finite float stands for (0 for an infinity or a NaN). *)
Definition float_value (x : float) : Q :=
  match Prim2SF x with
  | S754_finite s m e => inject_Z (cond_Zopp s (Zpos m)) * 2 ^ e
  | _ => 0
  end.

(** [x * n] for a [float] and an [int]. *)
Definition float_mul_int {S} (x : float) (n : Z) : method S float :=
  match float_of_int n with
  | Some f => ret (x * f)%float
  | None => raise (OverflowError "int too large to convert to float")
  end.

(** [sum(xs)] on floats as CPython computes it up to version 3.11: a
    running total from 0, left to right.  From 3.12 on [sum] carries a
    rounding compensation along, so the methods that call [sum] take the
    built-in as a parameter. *)
Definition float_sum (xs : list float) : float :=
  fold_left PrimFloat.add xs 0%float.

(** ** Python dictionaries keyed by strings, in insertion order *)

(** [d.get(key)], [key in d] *)
Fixpoint dict_get {V} (d : list (string * V)) (key : string) : option V :=
  match d with
  | [] => None
  | (k, v) :: rest => if decide (k = key) then Some v else dict_get rest key
  end.

(** [d[key] = value]: in place when the key is there, at the end otherwise. *)
Fixpoint dict_set {V} (d : list (string * V)) (key : string) (value : V)
    : list (string * V) :=
  match d with
  | [] => [(key, value)]
  | (k, v) :: rest =>
      if decide (k = key) then (k, value) :: rest
      else (k, v) :: dict_set rest key value
  end.

(** [del d[key]] *)
Fixpoint dict_del {V} (d : list (string * V)) (key : string) : list (string * V) :=
  match d with
  | [] => []
  | (k, v) :: rest =>
      if decide (k = key) then dict_del rest key
      else (k, v) :: dict_del rest key
  end.

(** ** Records of a history

    [{'type': t, 'amount': a}], [{'type': t, 'symbol': s, 'quantity': q}]
    and [{'type': t, 'symbol': s, 'quantity': q, 'price': p}]. *)
Inductive record : Type :=
| cash_record (type : string) (amount : float)
| trade_record (type : string) (symbol : string) (quantity : Z)
| priced_record (type : string) (symbol : string) (quantity : Z) (price : float).

(** [t['type']] *)
Definition record_type (t : record) : string :=
  match t with
  | cash_record type _ | trade_record type _ _ | priced_record type _ _ _ => type
  end.

(** [t['amount']] *)
Definition record_amount {S} (t : record) : method S float :=
  match t with
  | cash_record _ amount => ret amount
  | _ => raise (KeyError "amount")
  end.

(** [t['amount'] for t in transactions if t['type'] == tag] *)
Fixpoint amounts_tagged {S} (tag : string) (transactions : list record)
    : method S (list float) :=
  match transactions with
  | [] => ret []
  | t :: rest =>
      if decide (record_type t = tag)
      then amount ← record_amount t;
           more ← amounts_tagged tag rest;
           ret (amount :: more)
      else amounts_tagged tag rest
  end.

(** The calls a client can make, with Python numbers: an amount is a
    [float] and a quantity an [int], as the methods annotate them. *)
Inductive pycall : Type :=
| PyDeposit (amount : float)
| PyWithdraw (amount : float)
| PyBuy (symbol : string) (quantity : Z)
| PySell (symbol : string) (quantity : Z).

(** ** [output/accounts.py], with Python numbers *)

Module PyAccounts.

Record Account : Type := mkAccount {
  username : string;
  balance : float;
  holdings : list (string * Z);
  transactions : list record
}.

(** [Account(username)] *)
Definition init (username : string) : Account :=
  {| username := username; balance := 0%float; holdings := []; transactions := [] |}.

Definition set_balance (b : float) (self : Account) : Account :=
  {| username := username self; balance := b;
     holdings := holdings self; transactions := transactions self |}.

Definition set_holdings (h : list (string * Z)) (self : Account) : Account :=
  {| username := username self; balance := balance self;
     holdings := h; transactions := transactions self |}.

Definition append (t : record) (self : Account) : Account :=
  {| username := username self; balance := balance self;
     holdings := holdings self; transactions := transactions self ++ [t] |}.

Definition prices : list (string * float) :=
  [("AAPL", 150%float); ("TSLA", 700%float); ("GOOGL", 2800%float)].

(** [prices.get(symbol, 0.0)] *)
Definition get_share_price (symbol : string) : float :=
  default 0%float (dict_get prices symbol).

Definition create_account (name : string) : method Account unit :=
  modify (λ _, init name).

Definition deposit (amount : float) : method Account unit :=
  raise_if (amount <=? 0)%float
    (ValueError "Deposit amount must be greater than zero.");;
  modify (λ self, set_balance (balance self + amount)%float self);;
  modify (append (cash_record "Deposit" amount)).

Definition withdraw (amount : float) : method Account unit :=
  raise_if (amount <=? 0)%float
    (ValueError "Withdrawal amount must be greater than zero.");;
  self ← get;
  raise_if (balance self - amount <? 0)%float
    (ValueError "Insufficient funds to withdraw the specified amount.");;
  modify (λ self, set_balance (balance self - amount)%float self);;
  modify (append (cash_record "Withdrawal" amount)).

Definition buy_shares (symbol : string) (quantity : Z) : method Account unit :=
  raise_if (quantity <=? 0)%Z
    (ValueError "Quantity must be greater than zero.");;
  cost ← float_mul_int (get_share_price symbol) quantity;
  self ← get;
  raise_if (balance self <? cost)%float
    (ValueError "Insufficient funds to buy shares.");;
  modify (λ self, set_balance (balance self - cost)%float self);;
  modify (λ self,
    match dict_get (holdings self) symbol with
    | Some held => set_holdings (dict_set (holdings self) symbol (held + quantity)%Z) self
    | None => set_holdings (dict_set (holdings self) symbol quantity) self
    end);;
  modify (append (trade_record "Buy" symbol quantity)).

(** [self.holdings[symbol] -= quantity] *)
Definition holdings_isub (symbol : string) (quantity : Z) : method Account unit :=
  self ← get;
  match dict_get (holdings self) symbol with
  | None => raise (KeyError symbol)
  | Some held =>
      modify (set_holdings (dict_set (holdings self) symbol (held - quantity)%Z))
  end.

(** [if self.holdings[symbol] == 0: del self.holdings[symbol]] *)
Definition holdings_del_if_zero (symbol : string) : method Account unit :=
  self ← get;
  match dict_get (holdings self) symbol with
  | None => raise (KeyError symbol)
  | Some held =>
      if (held =? 0)%Z
      then modify (set_holdings (dict_del (holdings self) symbol))
      else ret tt
  end.

Definition sell_shares (symbol : string) (quantity : Z) : method Account unit :=
  raise_if (quantity <=? 0)%Z
    (ValueError "Quantity must be greater than zero.");;
  self ← get;
  raise_if
    match dict_get (holdings self) symbol with
    | None => true
    | Some held => (held <? quantity)%Z
    end
    (ValueError "Not enough shares to sell.");;
  proceeds ← float_mul_int (get_share_price symbol) quantity;
  modify (λ self, set_balance (balance self + proceeds)%float self);;
  holdings_isub symbol quantity;;
  holdings_del_if_zero symbol;;
  modify (append (trade_record "Sell" symbol quantity)).

(** The loop of [get_portfolio_value]: one [total_value += price * quantity]
    per item, in the order of the dictionary. *)
Fixpoint add_values (items : list (string * Z)) (total_value : float)
    : method Account float :=
  match items with
  | [] => ret total_value
  | (symbol, quantity) :: rest =>
      value ← float_mul_int (get_share_price symbol) quantity;
      add_values rest (total_value + value)%float
  end.

Definition get_portfolio_value : method Account float :=
  self ← get;
  add_values (holdings self) (balance self).

Section ProfitLoss.
(** The built-in [sum], on a list of floats. *)
Variable sum : list float → float.

Definition get_profit_loss : method Account float :=
  self ← get;
  amounts ← amounts_tagged "Deposit" (transactions self);
  let initial_investment := sum amounts in
  current_value ← get_portfolio_value;
  ret (current_value - initial_investment)%float.
End ProfitLoss.

Definition perform (c : pycall) : method Account unit :=
  match c with
  | PyDeposit amount => deposit amount
  | PyWithdraw amount => withdraw amount
  | PyBuy symbol quantity => buy_shares symbol quantity
  | PySell symbol quantity => sell_shares symbol quantity
  end.

Fixpoint run (calls : list pycall) (self : Account) : Account :=
  match calls with
  | [] => self
  | c :: rest => run rest (after (perform c self))
  end.

Fixpoint successes (calls : list pycall) (self : Account) : nat :=
  match calls with
  | [] => 0
  | c :: rest =>
      (if succeeded (perform c self) then 1 else 0)%nat
      + successes rest (after (perform c self))
  end.

Definition reachable (self : Account) : Prop :=
  ∃ name calls, self = run calls (init name).

(** Sessions in which the account may also be created anew. *)
Inductive step : Type :=
| Create (name : string)
| Call (c : pycall).

Definition perform_step (st : step) : method Account unit :=
  match st with
  | Create name => create_account name
  | Call c => perform c
  end.

Fixpoint run_steps (steps : list step) (self : Account) : Account :=
  match steps with
  | [] => self
  | st :: rest => run_steps rest (after (perform_step st self))
  end.

End PyAccounts.

(** ** [test_accounts.py], with Python numbers *)

Module PyTestAccounts.

Record Account : Type := mkAccount {
  user_id : string;
  balance : float;
  holdings : list (string * Z);
  transactions : list record
}.

Definition init (user_id : string) : Account :=
  {| user_id := user_id; balance := 0%float; holdings := []; transactions := [] |}.

Definition set_balance (b : float) (self : Account) : Account :=
  {| user_id := user_id self; balance := b;
     holdings := holdings self; transactions := transactions self |}.

Definition set_holdings (h : list (string * Z)) (self : Account) : Account :=
  {| user_id := user_id self; balance := balance self;
     holdings := h; transactions := transactions self |}.

Definition append (t : record) (self : Account) : Account :=
  {| user_id := user_id self; balance := balance self;
     holdings := holdings self; transactions := transactions self ++ [t] |}.

Definition prices : list (string * float) :=
  [("AAPL", 150%float); ("TSLA", 700%float); ("GOOGL", 2800%float)].

Definition get_share_price (symbol : string) : float :=
  default 0%float (dict_get prices symbol).

Definition deposit (amount : float) : method Account unit :=
  modify (λ self, set_balance (balance self + amount)%float self);;
  modify (append (cash_record "deposit" amount)).

Definition withdraw (amount : float) : method Account unit :=
  self ← get;
  raise_if (balance self - amount <? 0)%float (Exception "Insufficient funds");;
  modify (λ self, set_balance (balance self - amount)%float self);;
  modify (append (cash_record "withdraw" amount)).

Definition buy_share (symbol : string) (quantity : Z) : method Account unit :=
  total_cost ← float_mul_int (get_share_price symbol) quantity;
  self ← get;
  raise_if (balance self <? total_cost)%float
    (Exception "Insufficient funds to buy shares");;
  modify (λ self,
    set_holdings
      (dict_set (holdings self) symbol
         (default 0%Z (dict_get (holdings self) symbol) + quantity)%Z)
      self);;
  modify (λ self, set_balance (balance self - total_cost)%float self);;
  modify (append (trade_record "buy" symbol quantity)).

Definition holdings_isub (symbol : string) (quantity : Z) : method Account unit :=
  self ← get;
  match dict_get (holdings self) symbol with
  | None => raise (KeyError symbol)
  | Some held =>
      modify (set_holdings (dict_set (holdings self) symbol (held - quantity)%Z))
  end.

Definition holdings_del_if_zero (symbol : string) : method Account unit :=
  self ← get;
  match dict_get (holdings self) symbol with
  | None => raise (KeyError symbol)
  | Some held =>
      if (held =? 0)%Z
      then modify (set_holdings (dict_del (holdings self) symbol))
      else ret tt
  end.

Definition sell_share (symbol : string) (quantity : Z) : method Account unit :=
  self ← get;
  raise_if (default 0%Z (dict_get (holdings self) symbol) <? quantity)%Z
    (Exception "Not enough shares to sell");;
  total_earnings ← float_mul_int (get_share_price symbol) quantity;
  holdings_isub symbol quantity;;
  holdings_del_if_zero symbol;;
  modify (λ self, set_balance (balance self + total_earnings)%float self);;
  modify (append (trade_record "sell" symbol quantity)).

(** [total_value = 0.0], then one [+=] per item. *)
Fixpoint add_values (items : list (string * Z)) (total_value : float)
    : method Account float :=
  match items with
  | [] => ret total_value
  | (symbol, quantity) :: rest =>
      value ← float_mul_int (get_share_price symbol) quantity;
      add_values rest (total_value + value)%float
  end.

Definition calculate_portfolio_value : method Account float :=
  self ← get;
  add_values (holdings self) 0%float.

Section ProfitLoss.
(** The built-in [sum], on a list of floats. *)
Variable sum : list float → float.

Definition calculate_profit_loss : method Account float :=
  self ← get;
  amounts ← amounts_tagged "deposit" (transactions self);
  let total_deposited := sum amounts in
  value ← calculate_portfolio_value;
  ret (balance self + value - total_deposited)%float.
End ProfitLoss.

Definition perform (c : pycall) : method Account unit :=
  match c with
  | PyDeposit amount => deposit amount
  | PyWithdraw amount => withdraw amount
  | PyBuy symbol quantity => buy_share symbol quantity
  | PySell symbol quantity => sell_share symbol quantity
  end.

Fixpoint run (calls : list pycall) (self : Account) : Account :=
  match calls with
  | [] => self
  | c :: rest => run rest (after (perform c self))
  end.

Fixpoint successes (calls : list pycall) (self : Account) : nat :=
  match calls with
  | [] => 0
  | c :: rest =>
      (if succeeded (perform c self) then 1 else 0)%nat
      + successes rest (after (perform c self))
  end.

End PyTestAccounts.

(** ** [output/test_accounts.py], with Python numbers *)

Module PyOutputTestAccounts.

Record Account : Type := mkAccount {
  user_id : string;
  balance : float;
  holdings : list (string * Z);
  transactions : list record;
  initial_deposit : float
}.

(** [Account(user_id, initial_deposit)] *)
Definition init (user_id : string) (initial_deposit : float) : Account :=
  {| user_id := user_id; balance := initial_deposit; holdings := [];
     transactions := []; initial_deposit := initial_deposit |}.

Definition set_balance (b : float) (self : Account) : Account :=
  {| user_id := user_id self; balance := b; holdings := holdings self;
     transactions := transactions self; initial_deposit := initial_deposit self |}.

Definition set_holdings (h : list (string * Z)) (self : Account) : Account :=
  {| user_id := user_id self; balance := balance self; holdings := h;
     transactions := transactions self; initial_deposit := initial_deposit self |}.

Definition append (t : record) (self : Account) : Account :=
  {| user_id := user_id self; balance := balance self; holdings := holdings self;
     transactions := transactions self ++ [t];
     initial_deposit := initial_deposit self |}.

Definition prices : list (string * float) :=
  [("AAPL", 150%float); ("TSLA", 600%float); ("GOOGL", 2800%float)].

Definition get_share_price (symbol : string) : float :=
  default 0%float (dict_get prices symbol).

Definition deposit (amount : float) : method Account unit :=
  raise_if (amount <=? 0)%float (ValueError "Deposit amount must be positive");;
  modify (λ self, set_balance (balance self + amount)%float self);;
  modify (append (cash_record "deposit" amount)).

Definition buy_shares (symbol : string) (quantity : Z) : method Account unit :=
  let price := get_share_price symbol in
  cost ← float_mul_int price quantity;
  self ← get;
  raise_if (balance self <? cost)%float
    (ValueError "Insufficient funds for purchase");;
  modify (λ self,
    match dict_get (holdings self) symbol with
    | Some held => set_holdings (dict_set (holdings self) symbol (held + quantity)%Z) self
    | None => set_holdings (dict_set (holdings self) symbol quantity) self
    end);;
  modify (λ self, set_balance (balance self - cost)%float self);;
  modify (append (priced_record "buy" symbol quantity price)).

(** The two calls of this ledger, and a session of them. *)
Inductive request : Type :=
| AskDeposit (amount : float)
| AskBuy (symbol : string) (quantity : Z).

Definition perform (r : request) : method Account unit :=
  match r with
  | AskDeposit amount => deposit amount
  | AskBuy symbol quantity => buy_shares symbol quantity
  end.

Fixpoint run (requests : list request) (self : Account) : Account :=
  match requests with
  | [] => self
  | r :: rest => run rest (after (perform r self))
  end.

End PyOutputTestAccounts.

(** ** [output/app.py], with Python numbers

    The callbacks that change the account, and the two that show its cash
    and its profit or loss.  The texts they return embed
    [f"{amount:.2f}"] and [f"{quantity}"], formatting built into Python: the
    two formatters are parameters of the callbacks, and so is the built-in
    [sum] behind the profit or loss. *)

Module PyApp.

Definition account : PyAccounts.Account := PyAccounts.init "User".

Section Callbacks.
Variable format_2f : float → string.
Variable format_int : Z → string.
Variable sum : list float → float.

(** [try: ... except ValueError as e: return str(e)]: only a [ValueError]
    is caught; any other exception leaves the callback. *)
Definition except_ValueError
    (body : method PyAccounts.Account string) : method PyAccounts.Account string :=
  λ self,
    match body self with
    | (self', Raised (ValueError msg)) => (self', Returned msg)
    | result => result
    end.

Definition deposit (amount : float) : method PyAccounts.Account string :=
  except_ValueError
    (PyAccounts.deposit amount;;
     ret ("Deposited $" +:+ format_2f amount)).

Definition withdraw (amount : float) : method PyAccounts.Account string :=
  except_ValueError
    (PyAccounts.withdraw amount;;
     ret ("Withdrew $" +:+ format_2f amount)).

Definition buy_shares (symbol : string) (quantity : Z)
    : method PyAccounts.Account string :=
  except_ValueError
    (PyAccounts.buy_shares symbol quantity;;
     ret ("Bought " +:+ format_int quantity +:+ " shares of " +:+ symbol)).

Definition sell_shares (symbol : string) (quantity : Z)
    : method PyAccounts.Account string :=
  except_ValueError
    (PyAccounts.sell_shares symbol quantity;;
     ret ("Sold " +:+ format_int quantity +:+ " shares of " +:+ symbol)).

Definition get_balance : method PyAccounts.Account string :=
  self ← get;
  ret ("Balance: $" +:+ format_2f (PyAccounts.balance self)).

Definition get_profit_loss : method PyAccounts.Account string :=
  profit_loss ← PyAccounts.get_profit_loss sum;
  ret ("Profit/Loss: $" +:+ format_2f profit_loss).

(** One click on a button of the two tabs that change the account. *)
Definition click (c : pycall) : method PyAccounts.Account string :=
  match c with
  | PyDeposit amount => deposit amount
  | PyWithdraw amount => withdraw amount
  | PyBuy symbol quantity => buy_shares symbol quantity
  | PySell symbol quantity => sell_shares symbol quantity
  end.
End Callbacks.

End PyApp.

(** ** Notions of the specification used to state the properties *)











(** Two spellings of one symbol: they agree up to letter case. *)
Definition same_symbol (s t : string) : Prop := upper s = upper t.

(** ** The same notions, with Python numbers *)

(** The tags a ledger writes on its records. *)
Record tags : Type := mkTags {
  deposit_tag : string;
  withdrawal_tag : string;
  buy_tag : string;
  sell_tag : string
}.

Definition accounts_tags : tags := mkTags "Deposit" "Withdrawal" "Buy" "Sell".
Definition copy_tags : tags := mkTags "deposit" "withdraw" "buy" "sell".

(** The record a call appends when it returns normally. *)
Definition tagged_record (tg : tags) (c : pycall) : record :=
  match c with
  | PyDeposit amount => cash_record (deposit_tag tg) amount
  | PyWithdraw amount => cash_record (withdrawal_tag tg) amount
  | PyBuy symbol quantity => trade_record (buy_tag tg) symbol quantity
  | PySell symbol quantity => trade_record (sell_tag tg) symbol quantity
  end.





(** What a record does to the cash, in binary64 and at the quotes of the
    price table; nothing for a record no call of the ledger writes. *)
Definition cash_after (tg : tags) (quote : string → float) (cash : float) (t : record)
    : option float :=
  match t with
  | cash_record type amount =>
      if decide (type = deposit_tag tg) then Some (cash + amount)%float
      else if decide (type = withdrawal_tag tg) then Some (cash - amount)%float
      else None
  | trade_record type symbol quantity =>
      match float_of_int quantity with
      | Some f =>
          if decide (type = buy_tag tg) then Some (cash - quote symbol * f)%float
          else if decide (type = sell_tag tg) then Some (cash + quote symbol * f)%float
          else None
      | None => None
      end
  | priced_record _ _ _ _ => None
  end.

(** The cash a history accounts for: its records applied to the opening
    cash one after the other, each with its rounding. *)
Fixpoint replayed (tg : tags) (quote : string → float) (history : list record)
    (cash : float) : option float :=
  match history with
  | [] => Some cash
  | t :: rest =>
      match cash_after tg quote cash t with
      | Some cash' => replayed tg quote rest cash'
      | None => None
      end
  end.

(** The same for the records of [output/test_accounts.py], whose buys carry
    their price. *)
Definition priced_cash_after (cash : float) (t : record) : option float :=
  match t with
  | cash_record _ amount => Some (cash + amount)%float
  | priced_record _ _ quantity price =>
      match float_of_int quantity with
      | Some f => Some (cash - price * f)%float
      | None => None
      end
  | trade_record _ _ _ => None
  end.

Fixpoint priced_replayed (history : list record) (cash : float) : option float :=
  match history with
  | [] => Some cash
  | t :: rest =>
      match priced_cash_after cash t with
      | Some cash' => priced_replayed rest cash'
      | None => None
      end
  end.

(** A buy record carries the table price of its symbol. *)
Definition priced_at_table (t : record) : Prop :=
  match t with
  | priced_record _ symbol _ price => price = PyOutputTestAccounts.get_share_price symbol
  | _ => True
  end.

(** A call that passes the sign checks of [output/accounts.py]: an amount
    that is not [<= 0], a quantity above 0. *)
Definition passes_sign_checks (c : pycall) : Prop :=
  match c with
  | PyDeposit amount | PyWithdraw amount => (amount <=? 0)%float = false
  | PyBuy _ quantity | PySell _ quantity => (0 < quantity)%Z
  end.

(** Every position holds a positive number of shares. *)
Definition positive_positions (holdings : list (string * Z)) : Prop :=
  ∀ symbol held, dict_get holdings symbol = Some held → (0 < held)%Z.

(** The invariants of the data model on Python numbers: the cash is not
    below zero and no position is empty. *)
Definition well_kept (balance : float) (holdings : list (string * Z)) : Prop :=
  (balance <? 0)%float = false ∧ positive_positions holdings.

(** A record as the methods of a ledger write them: a cash record tagged as
    a deposit or a withdrawal, a trade record tagged as a buy or a sell. *)
Definition written_by (tg : tags) (t : record) : Prop :=
  match t with
  | cash_record type _ => type = deposit_tag tg ∨ type = withdrawal_tag tg
  | trade_record type _ _ => type = buy_tag tg ∨ type = sell_tag tg
  | priced_record _ _ _ _ => False
  end.

(** The tag [test_accounts.py] writes where [output/accounts.py] writes
    [type], and a record with its tag so renamed. *)
Definition copy_tag (type : string) : string :=
  if decide (type = "Deposit") then "deposit"
  else if decide (type = "Withdrawal") then "withdraw"
  else if decide (type = "Buy") then "buy"
  else if decide (type = "Sell") then "sell"
  else type.

Definition retagged (t : record) : record :=
  match t with
  | cash_record type amount => cash_record (copy_tag type) amount
  | trade_record type symbol quantity => trade_record (copy_tag type) symbol quantity
  | priced_record type symbol quantity price =>
      priced_record (copy_tag type) symbol quantity price
  end.

(** An [Account] of [output/accounts.py] and one of [test_accounts.py] with
    the same cash, bit for bit, the same positions in the same order and
    the same history up to the spelling of the tags. *)
Definition same_accounts (a : PyAccounts.Account) (b : PyTestAccounts.Account) : Prop :=
  PyAccounts.balance a = PyTestAccounts.balance b
  ∧ PyAccounts.holdings a = PyTestAccounts.holdings b
  ∧ retagged <$> PyAccounts.transactions a = PyTestAccounts.transactions b.

(** * Properties *)

Ltac run_method :=
  unfold mbind, method_bind, bind, raise_if, raise, ret, modify, get; cbn.

(** ** Comparisons *)

Lemma Qleb_true x y : Qleb x y = true ↔ x <= y.
Proof. apply Qle_bool_iff. Qed.

Lemma Qleb_false x y : Qleb x y = false ↔ y < x.
Proof.
  unfold Qleb. split; intros H.
  - apply Qnot_le_lt. intros Hle. apply Qle_bool_iff in Hle. congruence.
  - destruct (Qle_bool x y) eqn:E; [|done].
    apply Qle_bool_iff in E. lra.
Qed.

Lemma Qltb_true x y : Qltb x y = true ↔ x < y.
Proof. unfold Qltb. rewrite negb_true_iff. apply Qleb_false. Qed.


(** ** Binary64 *)

Lemma float_eq_of_spec x y : Prim2SF x = Prim2SF y → x = y.
Proof. intros H. by rewrite <- (SF2Prim_Prim2SF x), H, SF2Prim_Prim2SF. Qed.

(** Subtracting 0.0 changes no float, not even a signed zero or a NaN. *)
Lemma float_sub_zero x : (x - 0)%float = x.
Proof.
  apply float_eq_of_spec. rewrite sub_spec.
  change (Prim2SF 0) with (S754_zero false).
  by destruct (Prim2SF x) as [[]|[]| |[] m e].
Qed.

Lemma float_mul_zero f : nonneg_finite (Prim2SF f) → (0 * f)%float = 0%float.
Proof.
  intros Hf. apply float_eq_of_spec. rewrite mul_spec.
  change (Prim2SF 0) with (S754_zero false).
  by destruct (Prim2SF f) as [[]|[]| |[] m e].
Qed.

Lemma positive_finite_spec x :
  positive_finite x = true → ∃ m e, Prim2SF x = S754_finite false m e.
Proof.
  unfold positive_finite. rewrite andb_true_iff, !ltb_spec.
  change (Prim2SF 0) with (S754_zero false).
  change (Prim2SF infinity) with (S754_infinity false).
  destruct (Prim2SF x) as [[]|[]| |[] m e]; intros [H0 Hinf]; try done.
  by exists m, e.
Qed.

(** A finite float minus itself is 0.0. *)
Lemma float_sub_self x s m e :
  Prim2SF x = S754_finite s m e → (x - x)%float = 0%float.
Proof.
  intros Hx. apply float_eq_of_spec. rewrite sub_spec, Hx.
  change (Prim2SF 0) with (S754_zero false).
  unfold SF64sub, SFsub. rewrite Z.sub_diag. reflexivity.
Qed.

(** *** The conversion of a non-negative [int] *)

Lemma shr_1_nonneg mrs : (0 <= shr_m mrs)%Z → (0 <= shr_m (shr_1 mrs))%Z.
Proof. destruct mrs as [[|[p|p|]|p] r s]; simpl; lia. Qed.

Lemma iter_shr_1_nonneg n mrs :
  (0 <= shr_m mrs)%Z → (0 <= shr_m (SpecFloat.iter_pos shr_1 n mrs))%Z.
Proof.
  revert mrs. induction n as [n IH|n IH|]; intros mrs Hm; simpl.
  - by apply IH, IH, shr_1_nonneg.
  - by apply IH, IH.
  - by apply shr_1_nonneg.
Qed.

Lemma shr_fexp_nonneg m e l :
  (0 <= m)%Z → (0 <= shr_m (fst (shr_fexp prec emax m e l)))%Z.
Proof.
  intros Hm. unfold shr_fexp, shr.
  assert (0 <= shr_m (shr_record_of_loc m l))%Z as Hrec
    by (by destruct l as [|[]]).
  destruct (_ - e)%Z; simpl; [done| |done].
  by apply iter_shr_1_nonneg.
Qed.

Lemma round_nearest_even_nonneg mx lx :
  (0 <= mx)%Z → (0 <= round_nearest_even mx lx)%Z.
Proof.
  intros Hm. destruct lx as [|[]]; simpl; try lia.
  destruct (Z.even mx); lia.
Qed.

Lemma binary_round_aux_sign sx mx ex lx :
  (0 <= mx)%Z → sign_kept sx (binary_round_aux prec emax sx mx ex lx).
Proof.
  intros Hm. unfold binary_round_aux.
  pose proof (shr_fexp_nonneg mx ex lx Hm) as H1.
  destruct (shr_fexp prec emax mx ex lx) as [mrs' e']. simpl in H1.
  pose proof (shr_fexp_nonneg _ e' loc_Exact
                (round_nearest_even_nonneg _ (loc_of_shr_record mrs') H1)) as H2.
  destruct (shr_fexp prec emax _ e' loc_Exact) as [mrs'' e'']. simpl in H2.
  destruct (shr_m mrs'') as [|m|m]; simpl; [done| |lia].
  by destruct (_ <=? _)%Z.
Qed.

Lemma binary_round_sign sx mx ex : sign_kept sx (binary_round prec emax sx mx ex).
Proof.
  unfold binary_round. destruct (shl_align _ _ _) as [mz ez].
  by apply binary_round_aux_sign.
Qed.

Lemma binary_normalize_nonneg n :
  (0 <= n)%Z → sign_kept false (binary_normalize prec emax n 0 false).
Proof.
  intros Hn. destruct n as [|p|p]; simpl; [done| |lia].
  apply binary_round_sign.
Qed.

Lemma SF2Prim_sign s :
  sign_kept false s → sign_kept false (Prim2SF (SF2Prim s)).
Proof.
  destruct s as [[]|[]| |[] m e]; simpl; try done; intros _.
  rewrite Z_ldexp_spec, of_uint63_spec.
  pose proof (binary_normalize_nonneg (Uint63.to_Z (Uint63.of_Z (Z.pos m)))
                (proj1 (Uint63.to_Z_bounded _))) as Hn.
  destruct (binary_normalize _ _ _ _ _) as [sn|sn| |sn mn en]; simpl in *; try done.
  subst sn. apply binary_round_sign.
Qed.

Lemma is_finite_not_infinity x s :
  is_finite x = true → Prim2SF x ≠ S754_infinity s.
Proof.
  unfold is_finite, is_infinity. rewrite negb_true_iff, orb_false_iff.
  intros [_ Hinf] Hx. rewrite FloatAxioms.eqb_spec, abs_spec, Hx in Hinf.
  by destruct s.
Qed.

Lemma float_of_int_nonneg n f :
  (0 <= n)%Z → float_of_int n = Some f → nonneg_finite (Prim2SF f).
Proof.
  unfold float_of_int. intros Hn.
  destruct (is_finite _) eqn:Hfin; [|done]. intros [= <-].
  pose proof (SF2Prim_sign _ (binary_normalize_nonneg n Hn)) as Hsign.
  pose proof (is_finite_not_infinity _ false Hfin) as Hinf.
  destruct (Prim2SF _) as [s|s| |s m e]; simpl in *; try done; by subst s.
Qed.

(** *** Floats that are not below zero *)

Lemma ltb_zero_false x : (x <? 0)%float = false ↔ not_negative (Prim2SF x).
Proof.
  rewrite ltb_spec. change (Prim2SF 0) with (S754_zero false).
  by destruct (Prim2SF x) as [[]|[]| |[] m e].
Qed.

Lemma leb_zero_false x : (x <=? 0)%float = false → not_negative (Prim2SF x).
Proof.
  rewrite leb_spec. change (Prim2SF 0) with (S754_zero false).
  by destruct (Prim2SF x) as [[]|[]| |[] m e].
Qed.

Lemma sign_kept_not_negative s : sign_kept false s → not_negative s.
Proof. destruct s as [[]|[]| |[] m e]; simpl; done. Qed.

Lemma binary_normalize_sign n e :
  (0 <= n)%Z → sign_kept false (binary_normalize prec emax n e false).
Proof.
  intros Hn. destruct n as [|p|p]; simpl; [done| |lia].
  apply binary_round_sign.
Qed.

Lemma SFadd_not_negative x y :
  not_negative x → not_negative y → not_negative (SFadd prec emax x y).
Proof.
  destruct x as [[]|[]| |[] mx ex], y as [[]|[]| |[] my ey]; try done.
  intros _ _. apply sign_kept_not_negative, binary_normalize_sign. simpl. lia.
Qed.

Lemma SFmul_not_negative x y :
  nonneg_finite x → nonneg_finite y → not_negative (SFmul prec emax x y).
Proof.
  destruct x as [[]|[]| |[] mx ex], y as [[]|[]| |[] my ey]; try done.
  intros _ _. apply sign_kept_not_negative, binary_round_aux_sign. lia.
Qed.

Lemma digits2_pos_bounds p :
  (2 ^ (Z.pos (digits2_pos p) - 1) <= Z.pos p < 2 ^ Z.pos (digits2_pos p))%Z.
Proof.
  induction p as [p IH|p IH|]; simpl digits2_pos.
  - rewrite Pos2Z.inj_succ, Z.pow_succ_r by lia.
    replace (Z.succ (Z.pos (digits2_pos p)) - 1)%Z
      with (Z.succ (Z.pos (digits2_pos p) - 1)) by lia.
    rewrite Z.pow_succ_r by lia. lia.
  - rewrite Pos2Z.inj_succ, Z.pow_succ_r by lia.
    replace (Z.succ (Z.pos (digits2_pos p)) - 1)%Z
      with (Z.succ (Z.pos (digits2_pos p) - 1)) by lia.
    rewrite Z.pow_succ_r by lia. lia.
  - simpl. lia.
Qed.

Lemma bounded_mantissa m e :
  bounded prec emax m e = true →
  (-1074 <= e)%Z ∧ (Z.pos m < 2 ^ 53)%Z ∧ (e = -1074 ∨ 2 ^ 52 <= Z.pos m)%Z.
Proof.
  unfold bounded, canonical_mantissa, fexp. rewrite andb_true_iff.
  intros [Hc _]. apply Z.eqb_eq in Hc.
  change (SpecFloat.emin prec emax) with (-1074)%Z in Hc.
  change prec with 53%Z in Hc.
  pose proof (digits2_pos_bounds m) as [Hlo Hhi].
  pose proof (Z.max_spec (Z.pos (digits2_pos m) + e - 53) (-1074)) as Hmax.
  change (IntDef.Z.max) with Z.max in Hc.
  assert (Z.pos (digits2_pos m) <= 53)%Z as Hd by lia.
  split; [lia|]. split.
  - eapply Z.lt_le_trans; [apply Hhi|]. by apply Z.pow_le_mono_r.
  - destruct (decide (e = -1074)%Z) as [|Hne]; [by left|right].
    assert (Z.pos (digits2_pos m) = 53)%Z as Hd53 by lia.
    by rewrite Hd53 in Hlo.
Qed.

Lemma shl_align_same m e : shl_align m e e = (m, e).
Proof. unfold shl_align. by rewrite Z.sub_diag. Qed.

Lemma shl_align_down m e e' :
  (e' < e)%Z → Z.pos (fst (shl_align m e e')) = (2 ^ (e - e') * Z.pos m)%Z.
Proof.
  intros Hlt. unfold shl_align.
  destruct (e' - e)%Z as [|d|d] eqn:Hd; try lia. simpl.
  change (Pos.iter xO m d) with (shift_pos d m).
  rewrite shift_pos_correct, Z.pow_pos_fold. f_equal. f_equal. lia.
Qed.

Lemma SFsub_not_negative x y :
  valid_binary x = true → valid_binary y = true →
  not_negative x → SFltb x y = false → not_negative (SFsub prec emax x y).
Proof.
  destruct x as [[]|[]| |[] mx ex], y as [[]|[]| |[] my ey]; try done.
  - intros _ _ _ _. apply sign_kept_not_negative, binary_normalize_sign. simpl. lia.
  - intros Hx Hy _. unfold SFltb. cbn [SFcompare valid_binary SpecFloat.valid_binary] in *.
    apply bounded_mantissa in Hx as (Hxe & Hxhi & Hxlo), Hy as (Hye & Hyhi & Hylo).
    intros Hcmp. apply sign_kept_not_negative, binary_normalize_sign.
    destruct (Z.compare_spec ex ey) as [->|Hlt|Hgt]; [|done|].
    + rewrite Z.min_id, !shl_align_same. simpl.
      rewrite Pos.compare_cont_spec in Hcmp. simpl in Hcmp.
      destruct (Pos.compare_spec mx my); try done; lia.
    + rewrite Z.min_r by lia. rewrite shl_align_same, shl_align_down by lia. simpl.
      assert (2 ^ 1 <= 2 ^ (ex - ey))%Z by (apply Z.pow_le_mono_r; lia).
      destruct Hxlo as [->|Hxlo]; [lia|nia].
Qed.

Lemma float_add_not_negative x y :
  (x <? 0)%float = false → (y <? 0)%float = false → (x + y <? 0)%float = false.
Proof.
  rewrite !ltb_zero_false, add_spec. apply SFadd_not_negative.
Qed.

Lemma float_sub_not_negative x y :
  (x <? 0)%float = false → (x <? y)%float = false → (x - y <? 0)%float = false.
Proof.
  rewrite !ltb_zero_false, sub_spec, ltb_spec.
  apply SFsub_not_negative; apply Prim2SF_valid.
Qed.

Lemma float_mul_not_negative x y :
  nonneg_finite (Prim2SF x) → nonneg_finite (Prim2SF y) → (x * y <? 0)%float = false.
Proof.
  rewrite ltb_zero_false, mul_spec. apply SFmul_not_negative.
Qed.

Lemma float_positive_not_negative x : (x <=? 0)%float = false → (x <? 0)%float = false.
Proof. rewrite ltb_zero_false. apply leb_zero_false. Qed.

(** *** Differences that are below zero *)

Lemma shr_1_half mrs t :
  (1 <= t)%Z → (2 * t <= shr_m mrs)%Z → (t <= shr_m (shr_1 mrs))%Z.
Proof. destruct mrs as [[|[p|p|]|p] r s]; simpl; lia. Qed.

Lemma iter_shr_1_half n mrs t :
  (1 <= t)%Z → (2 ^ Z.pos n * t <= shr_m mrs)%Z →
  (t <= shr_m (SpecFloat.iter_pos shr_1 n mrs))%Z.
Proof.
  revert mrs t. induction n as [n IH|n IH|]; intros mrs t Ht Hm; simpl.
  - assert (0 < 2 ^ Z.pos n)%Z as Hpow by (apply Z.pow_pos_nonneg; lia).
    replace (Z.pos n~1) with (Z.pos n + Z.pos n + 1)%Z in Hm by lia.
    rewrite !Z.pow_add_r, Z.pow_1_r in Hm by lia.
    apply IH; [done|]. apply IH; [nia|]. apply shr_1_half; [nia|]. nia.
  - assert (0 < 2 ^ Z.pos n)%Z as Hpow by (apply Z.pow_pos_nonneg; lia).
    replace (Z.pos n~0) with (Z.pos n + Z.pos n)%Z in Hm by lia.
    rewrite Z.pow_add_r in Hm by lia.
    apply IH; [done|]. apply IH; [nia|]. nia.
  - apply shr_1_half; [done|]. by rewrite Z.pow_1_r in Hm.
Qed.

Lemma shr_fexp_positive m e l :
  (1 <= m)%Z → (-1074 <= e)%Z →
  (1 <= shr_m (fst (shr_fexp prec emax m e l)))%Z
  ∧ (-1074 <= snd (shr_fexp prec emax m e l))%Z.
Proof.
  intros Hm He. unfold shr_fexp, shr, fexp.
  change (SpecFloat.emin prec emax) with (-1074)%Z. change prec with 53%Z.
  change IntDef.Z.max with Z.max.
  destruct m as [|p|p]; try lia. simpl Zdigits2.
  pose proof (digits2_pos_bounds p) as [Hlo Hhi].
  destruct (_ - e)%Z as [|n|n] eqn:Hn; simpl.
  - split; [|done]. by destruct l as [|[]].
  - split; [|lia]. apply iter_shr_1_half; [done|].
    assert (Z.pos n <= Z.pos (digits2_pos p) - 1)%Z as Hle by lia.
    assert (shr_m (shr_record_of_loc (Z.pos p) l) = Z.pos p) as ->
      by (by destruct l as [|[]]).
    rewrite Z.mul_1_r. etransitivity; [|apply Hlo].
    apply Z.pow_le_mono_r; lia.
  - split; [|done]. by destruct l as [|[]].
Qed.

Lemma round_nearest_even_ge m l : (m <= round_nearest_even m l)%Z.
Proof. destruct l as [|[]]; simpl; try lia. destruct (Z.even m); lia. Qed.

Lemma binary_round_aux_nonzero sx mx ex lx :
  (1 <= mx)%Z → (-1074 <= ex)%Z →
  strictly_signed sx (binary_round_aux prec emax sx mx ex lx).
Proof.
  intros Hm He. unfold binary_round_aux.
  destruct (shr_fexp_positive mx ex lx Hm He) as [H1 He1].
  destruct (shr_fexp prec emax mx ex lx) as [mrs' e']. simpl in H1, He1.
  pose proof (round_nearest_even_ge (shr_m mrs') (loc_of_shr_record mrs')) as Hge.
  destruct (shr_fexp_positive (round_nearest_even (shr_m mrs') (loc_of_shr_record mrs'))
              e' loc_Exact ltac:(lia) He1) as [H2 _].
  destruct (shr_fexp prec emax _ e' loc_Exact) as [mrs'' e'']. simpl in H2.
  destruct (shr_m mrs'') as [|m|m]; simpl; [lia| |lia].
  by destruct (_ <=? _)%Z.
Qed.

Lemma binary_round_nonzero sx mx ex :
  (-1074 <= ex)%Z → strictly_signed sx (binary_round prec emax sx mx ex).
Proof.
  intros He. unfold binary_round, shl_align.
  destruct (_ - ex)%Z as [|d|d] eqn:Hd.
  - apply binary_round_aux_nonzero; lia.
  - apply binary_round_aux_nonzero; lia.
  - apply binary_round_aux_nonzero; [lia|].
    unfold fexp. change (SpecFloat.emin prec emax) with (-1074)%Z.
    change IntDef.Z.max with Z.max. lia.
Qed.

Lemma SFsub_negative x y :
  valid_binary x = true → valid_binary y = true →
  not_negative x → SFltb x y = true →
  SFltb (SFsub prec emax x y) (S754_zero false) = true.
Proof.
  destruct x as [[]|[]| |[] mx ex], y as [[]|[]| |[] my ey]; try done.
  intros Hx Hy _. unfold SFltb. cbn [SFcompare valid_binary SpecFloat.valid_binary] in *.
  apply bounded_mantissa in Hx as (Hxe & Hxhi & Hxlo), Hy as (Hye & Hyhi & Hylo).
  intros Hcmp.
  assert (Z.pos (fst (shl_align mx ex (ex `min` ey)))
          < Z.pos (fst (shl_align my ey (ex `min` ey))))%Z as Hlt.
  { destruct (Z.compare_spec ex ey) as [->|Hlt|Hgt]; [| |done].
    - rewrite Z.min_id, !shl_align_same. simpl.
      rewrite Pos.compare_cont_spec in Hcmp. simpl in Hcmp.
      destruct (Pos.compare_spec mx my); try done; lia.
    - rewrite Z.min_l by lia. rewrite shl_align_same, shl_align_down by lia. simpl.
      assert (2 ^ 1 <= 2 ^ (ey - ex))%Z by (apply Z.pow_le_mono_r; lia).
      destruct Hylo as [->|Hylo]; [lia|nia]. }
  unfold SFsub. cbv zeta. simpl cond_Zopp.
  destruct (_ - _)%Z as [|p|p] eqn:Hdiff; try lia. simpl binary_normalize.
  pose proof (binary_round_nonzero true p (ex `min` ey) ltac:(lia)) as Hsign.
  by destruct (binary_round _ _ _ _ _) as [|[]| |[] m e].
Qed.

Lemma float_sub_negative x y :
  (x <? 0)%float = false → (x <? y)%float = true → (x - y <? 0)%float = true.
Proof.
  rewrite ltb_zero_false, !ltb_spec, sub_spec.
  change (Prim2SF 0) with (S754_zero false).
  apply SFsub_negative; apply Prim2SF_valid.
Qed.

(** On a float that is not below zero, [x - y < 0] says [x < y]. *)
Lemma float_sub_below_zero x y :
  (x <? 0)%float = false → (x - y <? 0)%float = (x <? y)%float.
Proof.
  intros Hx. destruct (x <? y)%float eqn:Hlt.
  - by apply float_sub_negative.
  - by apply float_sub_not_negative.
Qed.

(** ** The books *)





Module AccountsFacts.
Import Accounts.

(** *** The four methods, case by case *)

Lemma deposit_eq amount self :
  deposit amount self =
    if Qleb amount 0
    then (self, Raised (ValueError "Deposit amount must be greater than zero."))
    else (append (Deposit amount) (set_balance (balance self + amount) self),
          Returned tt).
Proof. unfold deposit. run_method. by destruct (Qleb amount 0). Qed.

Lemma withdraw_eq amount self :
  withdraw amount self =
    if Qleb amount 0
    then (self, Raised (ValueError "Withdrawal amount must be greater than zero."))
    else if Qltb (balance self - amount) 0
    then (self, Raised (ValueError "Insufficient funds to withdraw the specified amount."))
    else (append (Withdrawal amount) (set_balance (balance self - amount) self),
          Returned tt).
Proof.
  unfold withdraw. run_method.
  destruct (Qleb amount 0); [done|].
  by destruct (Qltb (balance self - amount) 0).
Qed.



(** *** A raise leaves the object untouched; a return appends one record *)





(** *** Prices *)

Lemma prices_keys symbol :
  is_Some (prices !! symbol) ↔ symbol = "AAPL" ∨ symbol = "TSLA" ∨ symbol = "GOOGL".
Proof.
  unfold prices. rewrite !lookup_insert_is_Some, lookup_empty, is_Some_alt.
  intuition congruence.
Qed.



Lemma get_share_price_unknown symbol :
  prices !! symbol = None → get_share_price symbol = 0.
Proof. unfold get_share_price. by intros ->. Qed.


(** *** The invariant of the ledger *)





(** *** Selling a whole position *)


(** *** What the validation of [output/accounts.py] guarantees *)



(** An amount that is not positive is rejected by both cash methods. *)
Lemma nonpositive_amount_rejected amount self :
  amount <= 0 →
  deposit amount self
    = (self, Raised (ValueError "Deposit amount must be greater than zero."))
  ∧ withdraw amount self
    = (self, Raised (ValueError "Withdrawal amount must be greater than zero.")).
Proof.
  intros Ha. apply Qleb_true in Ha.
  by rewrite deposit_eq, withdraw_eq, Ha.
Qed.

Lemma priced_symbols_upper symbol :
  is_Some (prices !! symbol) → upper symbol = symbol.
Proof. rewrite prices_keys. by intros [->|[->| ->]]. Qed.

(** *** Sessions and the books *)






(** *** What a call never touches *)




End AccountsFacts.

Module TestAccountsFacts.
Import TestAccounts.

(** *** The four methods, case by case *)





(** *** A raise leaves the object untouched; a return appends one record *)





(** *** Sessions and the books *)






End TestAccountsFacts.

Module TradingFacts.
Import Trading.

Lemma buy_eq table now sym qty self :
  buy table now sym qty self =
    if (qty <=? 0)%Z then (self, Raised InvalidQuantityError)
    else
      match table !! upper sym with
      | None => (self, Raised (UnknownSymbolError sym))
      | Some p =>
          if Qltb (cash self) (scale p qty)
          then (self, Raised (InsufficientFundsError (cash self) (scale p qty)))
          else
            let pos :=
              match positions self !! sym with
              | Some old =>
                  mkPosition sym (shares old + qty)
                    ((inject_Z (shares old) * avg_cost old + inject_Z qty * p)
                     / inject_Z (shares old + qty))
              | None => mkPosition sym qty p
              end in
            (append (mkTradeRecord buy_t (Some sym) (Some qty) (Some p) (- scale p qty) now)
               (set_positions (<[sym := pos]> (positions self))
                  (set_cash (cash self - scale p qty) self)),
             Returned tt)
      end.
Proof.
  unfold buy, quote. run_method.
  destruct (qty <=? 0)%Z; [done|].
  destruct (table !! upper sym) as [p|]; [|done]. cbn.
  destruct (Qltb _ _); [done|].
  by destruct (positions self !! sym).
Qed.

Lemma sell_eq table now sym qty self :
  sell table now sym qty self =
    if (qty <=? 0)%Z then (self, Raised InvalidQuantityError)
    else
      match positions self !! sym with
      | None => (self, Raised (UnknownSymbolError sym))
      | Some pos =>
          if (shares pos <? qty)%Z
          then (self, Raised (InsufficientSharesError (shares pos) qty))
          else
            match table !! upper sym with
            | None => (self, Raised (UnknownSymbolError sym))
            | Some p =>
                (append (mkTradeRecord sell_t (Some sym) (Some qty) (Some p) (scale p qty) now)
                   (set_positions
                      (if (shares pos - qty =? 0)%Z
                       then delete sym (positions self)
                       else <[sym := mkPosition sym (shares pos - qty) (avg_cost pos)]>
                              (positions self))
                      (set_cash (cash self + scale p qty) self)),
                 Returned tt)
            end
      end.
Proof.
  unfold sell, quote. run_method.
  destruct (qty <=? 0)%Z; [done|].
  destruct (positions self !! sym) as [pos|]; [|done].
  destruct (shares pos <? qty)%Z; [done|].
  destruct (table !! upper sym) as [p|]; [|done]. cbn.
  by destruct (shares pos - qty =? 0)%Z.
Qed.

Lemma sell_keeps_avg_cost table now sym qty self sym' pos pos' :
  positions self !! sym' = Some pos →
  positions (after (sell table now sym qty self)) !! sym' = Some pos' →
  avg_cost pos' = avg_cost pos.
Proof.
  intros Hpos. rewrite sell_eq.
  destruct (qty <=? 0)%Z; [cbn; congruence|].
  destruct (positions self !! sym) as [held|] eqn:Hheld; [|cbn; congruence].
  destruct (shares held <? qty)%Z; [cbn; congruence|].
  destruct (table !! upper sym) as [p|]; [|cbn; congruence].
  cbn. destruct (decide (sym = sym')) as [->|Hne].
  - assert (held = pos) as -> by congruence.
    destruct (shares pos - qty =? 0)%Z.
    + by rewrite lookup_delete_eq.
    + rewrite lookup_insert_eq. by intros [= <-].
  - destruct (shares held - qty =? 0)%Z.
    + rewrite lookup_delete_ne by done. congruence.
    + rewrite lookup_insert_ne by done. congruence.
Qed.

(** The strict oracle quotes every spelling of a priced symbol alike. *)
Lemma quote_any_spelling table s t p self :
  same_symbol t s →
  table !! upper s = Some p →
  quote table t self = (self, Returned p).
Proof. unfold same_symbol, quote. intros -> ->. reflexivity. Qed.

Lemma cash_moves_keep_positions now amount self :
  positions (after (deposit now amount self)) = positions self
  ∧ positions (after (withdraw now amount self)) = positions self.
Proof.
  unfold deposit, withdraw. run_method.
  destruct (Qleb amount 0); [done|].
  by destruct (Qltb _ _).
Qed.

End TradingFacts.

(** ** Dictionaries in insertion order *)

Lemma dict_get_set_eq {V} (d : list (string * V)) key value :
  dict_get (dict_set d key value) key = Some value.
Proof.
  induction d as [|[k v] d IH]; simpl; repeat (case_decide; simpl); done.
Qed.

Lemma dict_get_set_ne {V} (d : list (string * V)) key value key' :
  key ≠ key' → dict_get (dict_set d key value) key' = dict_get d key'.
Proof.
  intros Hne. induction d as [|[k v] d IH]; simpl; repeat (case_decide; simpl);
    congruence.
Qed.

Lemma dict_get_del_eq {V} (d : list (string * V)) key :
  dict_get (dict_del d key) key = None.
Proof.
  induction d as [|[k v] d IH]; simpl; repeat (case_decide; simpl); done.
Qed.

Lemma dict_get_del_ne {V} (d : list (string * V)) key key' :
  key ≠ key' → dict_get (dict_del d key) key' = dict_get d key'.
Proof.
  intros Hne. induction d as [|[k v] d IH]; simpl; repeat (case_decide; simpl);
    congruence.
Qed.

Lemma dict_del_set {V} (d : list (string * V)) key value :
  dict_del (dict_set d key value) key = dict_del d key.
Proof.
  induction d as [|[k v] d IH]; simpl; repeat (case_decide; simpl); congruence.
Qed.

(** ** Histories *)


Lemma replayed_app tg quote history t cash :
  replayed tg quote (history ++ [t]) cash
  = match replayed tg quote history cash with
    | Some cash' => cash_after tg quote cash' t
    | None => None
    end.
Proof.
  revert cash. induction history as [|t' history IH]; intros cash; simpl.
  - by destruct (cash_after tg quote cash t).
  - destruct (cash_after tg quote cash t'); [apply IH|done].
Qed.

Lemma priced_replayed_app history t cash :
  priced_replayed (history ++ [t]) cash
  = match priced_replayed history cash with
    | Some cash' => priced_cash_after cash' t
    | None => None
    end.
Proof.
  revert cash. induction history as [|t' history IH]; intros cash; simpl.
  - by destruct (priced_cash_after cash t).
  - destruct (priced_cash_after cash t'); [apply IH|done].
Qed.

(** ** [output/accounts.py], with Python numbers *)

Module PyAccountsFacts.
Import PyAccounts.

(** *** The four methods, case by case *)

Lemma py_deposit_eq amount self :
  deposit amount self =
    if (amount <=? 0)%float
    then (self, Raised (ValueError "Deposit amount must be greater than zero."))
    else (mkAccount (username self) (balance self + amount) (holdings self)
            (transactions self ++ [cash_record "Deposit" amount]),
          Returned tt).
Proof. unfold deposit. run_method. by destruct (amount <=? 0)%float. Qed.

Lemma py_withdraw_eq amount self :
  withdraw amount self =
    if (amount <=? 0)%float
    then (self, Raised (ValueError "Withdrawal amount must be greater than zero."))
    else if (balance self - amount <? 0)%float
    then (self, Raised (ValueError "Insufficient funds to withdraw the specified amount."))
    else (mkAccount (username self) (balance self - amount) (holdings self)
            (transactions self ++ [cash_record "Withdrawal" amount]),
          Returned tt).
Proof.
  unfold withdraw. run_method.
  destruct (amount <=? 0)%float; [done|].
  by destruct (balance self - amount <? 0)%float.
Qed.

Lemma py_buy_shares_eq symbol quantity self :
  buy_shares symbol quantity self =
    if (quantity <=? 0)%Z
    then (self, Raised (ValueError "Quantity must be greater than zero."))
    else
      match float_of_int quantity with
      | None => (self, Raised (OverflowError "int too large to convert to float"))
      | Some f =>
          let cost := (get_share_price symbol * f)%float in
          if (balance self <? cost)%float
          then (self, Raised (ValueError "Insufficient funds to buy shares."))
          else
            let held := default 0%Z (dict_get (holdings self) symbol) in
            (mkAccount (username self) (balance self - cost)
               (dict_set (holdings self) symbol (held + quantity)%Z)
               (transactions self ++ [trade_record "Buy" symbol quantity]),
             Returned tt)
      end.
Proof.
  unfold buy_shares, float_mul_int. run_method.
  destruct (quantity <=? 0)%Z; [done|]. cbn.
  destruct (float_of_int quantity) as [f|]; [|done]. cbn.
  destruct (_ <? _)%float; [done|]. cbn.
  by destruct (dict_get (holdings self) symbol).
Qed.

Lemma py_sell_shares_eq symbol quantity self :
  sell_shares symbol quantity self =
    if (quantity <=? 0)%Z
    then (self, Raised (ValueError "Quantity must be greater than zero."))
    else
      match dict_get (holdings self) symbol with
      | None => (self, Raised (ValueError "Not enough shares to sell."))
      | Some held =>
          if (held <? quantity)%Z
          then (self, Raised (ValueError "Not enough shares to sell."))
          else
            match float_of_int quantity with
            | None => (self, Raised (OverflowError "int too large to convert to float"))
            | Some f =>
                (mkAccount (username self)
                   (balance self + get_share_price symbol * f)
                   (if (held - quantity =? 0)%Z
                    then dict_del (holdings self) symbol
                    else dict_set (holdings self) symbol (held - quantity)%Z)
                   (transactions self ++ [trade_record "Sell" symbol quantity]),
                 Returned tt)
            end
      end.
Proof.
  unfold sell_shares, holdings_isub, holdings_del_if_zero, float_mul_int. run_method.
  destruct (quantity <=? 0)%Z; [done|]. cbn.
  destruct (dict_get (holdings self) symbol) as [held|] eqn:Hheld; [|done].
  destruct (held <? quantity)%Z; [done|]. cbn.
  destruct (float_of_int quantity) as [f|]; [|done]. cbn.
  rewrite Hheld. cbn. rewrite dict_get_set_eq.
  destruct (held - quantity =? 0)%Z; cbn; [|done].
  by rewrite dict_del_set.
Qed.

(** *** A raise leaves the object untouched; a return appends one record *)

Lemma py_perform_raised c self e :
  raised (perform c self) = Some e → after (perform c self) = self.
Proof.
  destruct c as [amount|amount|symbol quantity|symbol quantity]; simpl.
  - rewrite py_deposit_eq. by destruct (amount <=? 0)%float.
  - rewrite py_withdraw_eq. destruct (amount <=? 0)%float; [done|].
    by destruct (_ <? _)%float.
  - rewrite py_buy_shares_eq. destruct (quantity <=? 0)%Z; [done|].
    destruct (float_of_int quantity); [|done]. cbv zeta.
    by destruct (_ <? _)%float.
  - rewrite py_sell_shares_eq. destruct (quantity <=? 0)%Z; [done|].
    destruct (dict_get (holdings self) symbol) as [held|]; [|done].
    destruct (held <? quantity)%Z; [done|].
    by destruct (float_of_int quantity).
Qed.

(** The exceptions of the ledger: its own [ValueError]s, and the
    [OverflowError] of a quantity that has no float. *)
Lemma py_perform_raises c self e :
  raised (perform c self) = Some e →
  (∃ msg, e = ValueError msg)
  ∨ e = OverflowError "int too large to convert to float".
Proof.
  destruct c as [amount|amount|symbol quantity|symbol quantity]; simpl.
  - rewrite py_deposit_eq. destruct (amount <=? 0)%float; [|done].
    intros [= <-]. left. by eexists.
  - rewrite py_withdraw_eq. destruct (amount <=? 0)%float.
    { intros [= <-]. left. by eexists. }
    destruct (_ <? _)%float; [|done]. intros [= <-]. left. by eexists.
  - rewrite py_buy_shares_eq. destruct (quantity <=? 0)%Z.
    { intros [= <-]. left. by eexists. }
    destruct (float_of_int quantity); [|intros [= <-]; by right]. cbv zeta.
    destruct (_ <? _)%float; [|done]. intros [= <-]. left. by eexists.
  - rewrite py_sell_shares_eq. destruct (quantity <=? 0)%Z.
    { intros [= <-]. left. by eexists. }
    destruct (dict_get (holdings self) symbol) as [held|];
      [|intros [= <-]; left; by eexists].
    destruct (held <? quantity)%Z; [intros [= <-]; left; by eexists|].
    destruct (float_of_int quantity); [done|]. intros [= <-]. by right.
Qed.

(** A call that returns appends its record, and moves the cash as the
    record says. *)
Lemma py_perform_succeeded c self :
  succeeded (perform c self) = true →
  transactions (after (perform c self))
  = transactions self ++ [tagged_record accounts_tags c]
  ∧ cash_after accounts_tags get_share_price (balance self)
      (tagged_record accounts_tags c)
    = Some (balance (after (perform c self))).
Proof.
  destruct c as [amount|amount|symbol quantity|symbol quantity]; simpl.
  - rewrite py_deposit_eq. by destruct (amount <=? 0)%float.
  - rewrite py_withdraw_eq. destruct (amount <=? 0)%float; [done|].
    by destruct (_ <? _)%float.
  - rewrite py_buy_shares_eq. destruct (quantity <=? 0)%Z; [done|].
    destruct (float_of_int quantity); [|done]. cbv zeta.
    by destruct (_ <? _)%float.
  - rewrite py_sell_shares_eq. destruct (quantity <=? 0)%Z; [done|].
    destruct (dict_get (holdings self) symbol) as [held|]; [|done].
    destruct (held <? quantity)%Z; [done|].
    by destruct (float_of_int quantity).
Qed.

Lemma py_perform_failed c self :
  succeeded (perform c self) = false → after (perform c self) = self.
Proof.
  intros Hfail. pose proof (py_perform_raised c self) as Hraised.
  unfold succeeded, raised in *.
  destruct (snd (perform c self)); [done|]. by eapply Hraised.
Qed.

Lemma py_perform_length c self :
  length (transactions (after (perform c self))) =
    (length (transactions self) + if succeeded (perform c self) then 1 else 0)%nat.
Proof.
  destruct (succeeded (perform c self)) eqn:Hs.
  - destruct (py_perform_succeeded c self Hs) as [-> _].
    rewrite length_app. simpl. lia.
  - rewrite (py_perform_failed c self Hs). lia.
Qed.

Lemma py_run_length calls self :
  length (transactions (run calls self)) =
    (length (transactions self) + successes calls self)%nat.
Proof.
  revert self. induction calls as [|c rest IH]; intros self; simpl.
  - lia.
  - rewrite IH, py_perform_length. lia.
Qed.

(** *** Prices *)

Lemma py_price_nonneg symbol : nonneg_finite (Prim2SF (get_share_price symbol)).
Proof.
  unfold get_share_price, prices. simpl.
  repeat case_decide; vm_compute; done.
Qed.

Lemma py_price_unknown symbol :
  dict_get prices symbol = None → get_share_price symbol = 0%float.
Proof. unfold get_share_price. by intros ->. Qed.

(** *** The invariant of the ledger *)

Lemma py_init_invariant name :
  well_kept (balance (init name)) (holdings (init name))
  ∧ Forall (written_by accounts_tags) (transactions (init name)).
Proof. split; [split|]; [done| |constructor]. by intros symbol held. Qed.

Lemma py_perform_invariant c self :
  well_kept (balance self) (holdings self)
  ∧ Forall (written_by accounts_tags) (transactions self) →
  well_kept (balance (after (perform c self))) (holdings (after (perform c self)))
  ∧ Forall (written_by accounts_tags) (transactions (after (perform c self))).
Proof.
  intros [[Hbal Hpos] Hrec].
  destruct c as [amount|amount|symbol quantity|symbol quantity]; simpl.
  - rewrite py_deposit_eq. destruct (amount <=? 0)%float eqn:Ha; [done|]. simpl.
    split; [split; [|done]|].
    + by apply float_add_not_negative, float_positive_not_negative.
    + apply Forall_app. split; [done|]. apply Forall_singleton. by left.
  - rewrite py_withdraw_eq. destruct (amount <=? 0)%float; [done|].
    destruct (balance self - amount <? 0)%float eqn:Hlt; [done|]. simpl.
    split; [done|]. apply Forall_app. split; [done|]. apply Forall_singleton. by right.
  - rewrite py_buy_shares_eq. destruct (quantity <=? 0)%Z eqn:Hq; [done|].
    destruct (float_of_int quantity) as [f|]; [|done]. cbv zeta.
    destruct (balance self <? get_share_price symbol * f)%float eqn:Hlt; [done|]. simpl.
    split; [split|].
    + by apply float_sub_not_negative.
    + intros s held. destruct (decide (symbol = s)) as [->|Hne].
      * rewrite dict_get_set_eq. intros [= <-].
        destruct (dict_get (holdings self) s) as [held0|] eqn:Hheld; simpl; [|lia].
        specialize (Hpos _ _ Hheld). lia.
      * rewrite dict_get_set_ne by done. apply Hpos.
    + apply Forall_app. split; [done|]. apply Forall_singleton. by left.
  - rewrite py_sell_shares_eq. destruct (quantity <=? 0)%Z eqn:Hq; [done|].
    destruct (dict_get (holdings self) symbol) as [held|] eqn:Hheld; [|done].
    destruct (held <? quantity)%Z eqn:Hlt; [done|].
    destruct (float_of_int quantity) as [f|] eqn:Hf; [|done]. simpl.
    split; [split|].
    + apply float_add_not_negative; [done|].
      apply float_mul_not_negative; [apply py_price_nonneg|].
      apply (float_of_int_nonneg quantity); [lia|done].
    + intros s held'. destruct (held - quantity =? 0)%Z eqn:Hz.
      * destruct (decide (symbol = s)) as [->|Hne].
        -- by rewrite dict_get_del_eq.
        -- rewrite dict_get_del_ne by done. apply Hpos.
      * destruct (decide (symbol = s)) as [->|Hne].
        -- rewrite dict_get_set_eq. intros [= <-]. lia.
        -- rewrite dict_get_set_ne by done. apply Hpos.
    + apply Forall_app. split; [done|]. apply Forall_singleton. by right.
Qed.

Lemma py_run_invariant calls self :
  well_kept (balance self) (holdings self)
  ∧ Forall (written_by accounts_tags) (transactions self) →
  well_kept (balance (run calls self)) (holdings (run calls self))
  ∧ Forall (written_by accounts_tags) (transactions (run calls self)).
Proof.
  revert self. induction calls as [|c rest IH]; intros self Hinv; simpl; [done|].
  by apply IH, py_perform_invariant.
Qed.

Lemma py_reachable_invariant self :
  reachable self →
  well_kept (balance self) (holdings self)
  ∧ Forall (written_by accounts_tags) (transactions self).
Proof.
  intros (name & calls & ->). apply py_run_invariant, py_init_invariant.
Qed.

Lemma py_run_steps_reachable steps self :
  reachable self → reachable (run_steps steps self).
Proof.
  revert self. induction steps as [|st rest IH]; intros self Hreach; simpl; [done|].
  apply IH. destruct st as [name|c]; simpl.
  - by exists name, [].
  - destruct Hreach as (name & calls & ->). exists name, (calls ++ [c]).
    clear IH. generalize (init name). induction calls as [|c' calls IH]; intros a; simpl;
      [done|apply IH].
Qed.

(** *** The history accounts for the cash *)

Lemma py_perform_replayed c self cash :
  replayed accounts_tags get_share_price (transactions self) cash = Some (balance self) →
  replayed accounts_tags get_share_price (transactions (after (perform c self))) cash
  = Some (balance (after (perform c self))).
Proof.
  intros Hreplay. destruct (succeeded (perform c self)) eqn:Hok.
  - destruct (py_perform_succeeded c self Hok) as [-> Hcash].
    by rewrite replayed_app, Hreplay.
  - by rewrite (py_perform_failed c self Hok).
Qed.

Lemma py_run_replayed calls self cash :
  replayed accounts_tags get_share_price (transactions self) cash = Some (balance self) →
  replayed accounts_tags get_share_price (transactions (run calls self)) cash
  = Some (balance (run calls self)).
Proof.
  revert self. induction calls as [|c rest IH]; intros self Hreplay; simpl; [done|].
  by apply IH, py_perform_replayed.
Qed.

(** *** The valuation *)


End PyAccountsFacts.

(** ** [test_accounts.py], with Python numbers *)

Module PyTestAccountsFacts.
Import PyTestAccounts.

(** *** The four methods, case by case *)

Lemma py_copy_deposit_eq amount self :
  deposit amount self
  = (mkAccount (user_id self) (balance self + amount) (holdings self)
       (transactions self ++ [cash_record "deposit" amount]),
     Returned tt).
Proof. done. Qed.

Lemma py_copy_withdraw_eq amount self :
  withdraw amount self =
    if (balance self - amount <? 0)%float
    then (self, Raised (Exception "Insufficient funds"))
    else (mkAccount (user_id self) (balance self - amount) (holdings self)
            (transactions self ++ [cash_record "withdraw" amount]),
          Returned tt).
Proof.
  unfold withdraw. run_method. by destruct (balance self - amount <? 0)%float.
Qed.

Lemma py_buy_share_eq symbol quantity self :
  buy_share symbol quantity self =
    match float_of_int quantity with
    | None => (self, Raised (OverflowError "int too large to convert to float"))
    | Some f =>
        let total_cost := (get_share_price symbol * f)%float in
        if (balance self <? total_cost)%float
        then (self, Raised (Exception "Insufficient funds to buy shares"))
        else
          let held := default 0%Z (dict_get (holdings self) symbol) in
          (mkAccount (user_id self) (balance self - total_cost)
             (dict_set (holdings self) symbol (held + quantity)%Z)
             (transactions self ++ [trade_record "buy" symbol quantity]),
           Returned tt)
    end.
Proof.
  unfold buy_share, float_mul_int. run_method.
  destruct (float_of_int quantity) as [f|]; [|done]. cbn.
  by destruct (_ <? _)%float.
Qed.

Lemma py_sell_share_eq symbol quantity self :
  sell_share symbol quantity self =
    if (default 0 (dict_get (holdings self) symbol) <? quantity)%Z
    then (self, Raised (Exception "Not enough shares to sell"))
    else
      match float_of_int quantity with
      | None => (self, Raised (OverflowError "int too large to convert to float"))
      | Some f =>
          match dict_get (holdings self) symbol with
          | None => (self, Raised (KeyError symbol))
          | Some held =>
              (mkAccount (user_id self)
                 (balance self + get_share_price symbol * f)
                 (if (held - quantity =? 0)%Z
                  then dict_del (holdings self) symbol
                  else dict_set (holdings self) symbol (held - quantity)%Z)
                 (transactions self ++ [trade_record "sell" symbol quantity]),
               Returned tt)
          end
      end.
Proof.
  unfold sell_share, holdings_isub, holdings_del_if_zero, float_mul_int. run_method.
  destruct (_ <? quantity)%Z; [done|]. cbn.
  destruct (float_of_int quantity) as [f|]; [|done]. cbn.
  destruct (dict_get (holdings self) symbol) as [held|] eqn:Hheld; [|done]. cbn.
  rewrite dict_get_set_eq.
  destruct (held - quantity =? 0)%Z; cbn; [|done].
  by rewrite dict_del_set.
Qed.

(** *** A raise leaves the object untouched; a return appends one record *)

Lemma py_copy_perform_raised c self e :
  raised (perform c self) = Some e → after (perform c self) = self.
Proof.
  destruct c as [amount|amount|symbol quantity|symbol quantity]; simpl.
  - done.
  - rewrite py_copy_withdraw_eq. by destruct (_ <? _)%float.
  - rewrite py_buy_share_eq.
    destruct (float_of_int quantity); [|done]. cbv zeta.
    by destruct (_ <? _)%float.
  - rewrite py_sell_share_eq. destruct (_ <? quantity)%Z; [done|].
    destruct (float_of_int quantity); [|done].
    by destruct (dict_get (holdings self) symbol).
Qed.

Lemma py_copy_perform_succeeded c self :
  succeeded (perform c self) = true →
  transactions (after (perform c self))
  = transactions self ++ [tagged_record copy_tags c]
  ∧ cash_after copy_tags get_share_price (balance self) (tagged_record copy_tags c)
    = Some (balance (after (perform c self))).
Proof.
  destruct c as [amount|amount|symbol quantity|symbol quantity]; simpl.
  - done.
  - rewrite py_copy_withdraw_eq. by destruct (_ <? _)%float.
  - rewrite py_buy_share_eq.
    destruct (float_of_int quantity); [|done]. cbv zeta.
    by destruct (_ <? _)%float.
  - rewrite py_sell_share_eq. destruct (_ <? quantity)%Z; [done|].
    destruct (float_of_int quantity); [|done].
    by destruct (dict_get (holdings self) symbol).
Qed.

Lemma py_copy_perform_failed c self :
  succeeded (perform c self) = false → after (perform c self) = self.
Proof.
  intros Hfail. pose proof (py_copy_perform_raised c self) as Hraised.
  unfold succeeded, raised in *.
  destruct (snd (perform c self)); [done|]. by eapply Hraised.
Qed.

Lemma py_copy_perform_length c self :
  length (transactions (after (perform c self))) =
    (length (transactions self) + if succeeded (perform c self) then 1 else 0)%nat.
Proof.
  destruct (succeeded (perform c self)) eqn:Hs.
  - destruct (py_copy_perform_succeeded c self Hs) as [-> _].
    rewrite length_app. simpl. lia.
  - rewrite (py_copy_perform_failed c self Hs). lia.
Qed.

Lemma py_copy_run_length calls self :
  length (transactions (run calls self)) =
    (length (transactions self) + successes calls self)%nat.
Proof.
  revert self. induction calls as [|c rest IH]; intros self; simpl.
  - lia.
  - rewrite IH, py_copy_perform_length. lia.
Qed.



(** *** The history accounts for the cash *)

Lemma py_copy_perform_replayed c self cash :
  replayed copy_tags get_share_price (transactions self) cash = Some (balance self) →
  replayed copy_tags get_share_price (transactions (after (perform c self))) cash
  = Some (balance (after (perform c self))).
Proof.
  intros Hreplay. destruct (succeeded (perform c self)) eqn:Hok.
  - destruct (py_copy_perform_succeeded c self Hok) as [-> Hcash].
    by rewrite replayed_app, Hreplay.
  - by rewrite (py_copy_perform_failed c self Hok).
Qed.

Lemma py_copy_run_replayed calls self cash :
  replayed copy_tags get_share_price (transactions self) cash = Some (balance self) →
  replayed copy_tags get_share_price (transactions (run calls self)) cash
  = Some (balance (run calls self)).
Proof.
  revert self. induction calls as [|c rest IH]; intros self Hreplay; simpl; [done|].
  by apply IH, py_copy_perform_replayed.
Qed.

(** *** The valuation *)


End PyTestAccountsFacts.

(** ** [output/test_accounts.py], with Python numbers *)

Module PyOutputTestAccountsFacts.
Import PyOutputTestAccounts.

Lemma py_partial_deposit_eq amount self :
  deposit amount self =
    if (amount <=? 0)%float
    then (self, Raised (ValueError "Deposit amount must be positive"))
    else (mkAccount (user_id self) (balance self + amount) (holdings self)
            (transactions self ++ [cash_record "deposit" amount])
            (initial_deposit self),
          Returned tt).
Proof. unfold deposit. run_method. by destruct (amount <=? 0)%float. Qed.

Lemma py_partial_buy_shares_eq symbol quantity self :
  buy_shares symbol quantity self =
    match float_of_int quantity with
    | None => (self, Raised (OverflowError "int too large to convert to float"))
    | Some f =>
        let price := get_share_price symbol in
        let cost := (price * f)%float in
        if (balance self <? cost)%float
        then (self, Raised (ValueError "Insufficient funds for purchase"))
        else
          let held := default 0%Z (dict_get (holdings self) symbol) in
          (mkAccount (user_id self) (balance self - cost)
             (dict_set (holdings self) symbol (held + quantity)%Z)
             (transactions self ++ [priced_record "buy" symbol quantity price])
             (initial_deposit self),
           Returned tt)
    end.
Proof.
  unfold buy_shares, float_mul_int. run_method.
  destruct (float_of_int quantity) as [f|]; [|done]. cbn.
  destruct (_ <? _)%float; [done|]. cbn.
  by destruct (dict_get (holdings self) symbol).
Qed.

(** The cash is never below zero ... *)
Lemma py_partial_perform_balance r self :
  (balance self <? 0)%float = false →
  (balance (after (perform r self)) <? 0)%float = false.
Proof.
  intros Hbal. destruct r as [amount|symbol quantity]; simpl.
  - rewrite py_partial_deposit_eq. destruct (amount <=? 0)%float eqn:Ha; [done|]. simpl.
    by apply float_add_not_negative, float_positive_not_negative.
  - rewrite py_partial_buy_shares_eq.
    destruct (float_of_int quantity) as [f|]; [|done]. cbv zeta.
    destruct (balance self <? get_share_price symbol * f)%float eqn:Hlt; [done|]. simpl.
    by apply float_sub_not_negative.
Qed.

Lemma py_partial_run_balance requests self :
  (balance self <? 0)%float = false →
  (balance (run requests self) <? 0)%float = false.
Proof.
  revert self. induction requests as [|r rest IH]; intros self Hbal; simpl; [done|].
  by apply IH, py_partial_perform_balance.
Qed.

(** ... the initial deposit stays as recorded, every buy record carries the
    table price, and the history replayed from the initial deposit gives
    the cash. *)
Lemma py_partial_perform_keeps r self :
  Forall priced_at_table (transactions self)
  ∧ priced_replayed (transactions self) (initial_deposit self) = Some (balance self) →
  initial_deposit (after (perform r self)) = initial_deposit self
  ∧ Forall priced_at_table (transactions (after (perform r self)))
  ∧ priced_replayed (transactions (after (perform r self))) (initial_deposit self)
    = Some (balance (after (perform r self))).
Proof.
  intros (Hprice & Hreplay).
  destruct r as [amount|symbol quantity]; simpl.
  - rewrite py_partial_deposit_eq. destruct (amount <=? 0)%float; [done|]. simpl.
    split; [done|]. split.
    + apply Forall_app. split; [done|]. by apply Forall_singleton.
    + by rewrite priced_replayed_app, Hreplay.
  - rewrite py_partial_buy_shares_eq.
    destruct (float_of_int quantity) as [f|] eqn:Hf; [|done]. cbv zeta.
    destruct (_ <? _)%float; [done|]. simpl.
    split; [done|]. split.
    + apply Forall_app. split; [done|]. by apply Forall_singleton.
    + rewrite priced_replayed_app, Hreplay. simpl. by rewrite Hf.
Qed.

Lemma py_partial_run_keeps requests self :
  Forall priced_at_table (transactions self)
  ∧ priced_replayed (transactions self) (initial_deposit self) = Some (balance self) →
  initial_deposit (run requests self) = initial_deposit self
  ∧ Forall priced_at_table (transactions (run requests self))
  ∧ priced_replayed (transactions (run requests self)) (initial_deposit self)
    = Some (balance (run requests self)).
Proof.
  revert self. induction requests as [|r rest IH]; intros self Hinv; simpl.
  - by destruct Hinv.
  - destruct (py_partial_perform_keeps r self Hinv) as (Hi & Hp & Hr).
    rewrite <- Hi. apply IH. by rewrite Hi.
Qed.

End PyOutputTestAccountsFacts.

(** ** The two ledgers side by side, with Python numbers *)

Module PyLedgersFacts.

Lemma py_perform_same c a b :
  passes_sign_checks c →
  same_accounts a b →
  same_accounts (after (PyAccounts.perform c a)) (after (PyTestAccounts.perform c b))
  ∧ succeeded (PyAccounts.perform c a) = succeeded (PyTestAccounts.perform c b).
Proof.
  intros Hc (Hbal & Hhold & Htr).
  destruct c as [amount|amount|symbol quantity|symbol quantity]; simpl in *.
  - rewrite PyAccountsFacts.py_deposit_eq, PyTestAccountsFacts.py_copy_deposit_eq, Hc.
    repeat split; simpl; [by rewrite Hbal|done|].
    by rewrite fmap_app, Htr.
  - rewrite PyAccountsFacts.py_withdraw_eq, PyTestAccountsFacts.py_copy_withdraw_eq, Hc.
    rewrite Hbal.
    destruct (PyTestAccounts.balance b - amount <? 0)%float; [done|].
    repeat split; simpl; [done|]. by rewrite fmap_app, Htr.
  - rewrite PyAccountsFacts.py_buy_shares_eq, PyTestAccountsFacts.py_buy_share_eq.
    assert ((quantity <=? 0)%Z = false) as -> by lia.
    destruct (float_of_int quantity) as [f|]; [|done]. cbv zeta.
    rewrite Hbal, Hhold.
    change (PyAccounts.get_share_price symbol)
      with (PyTestAccounts.get_share_price symbol).
    destruct (_ <? _)%float; [done|].
    repeat split; simpl. by rewrite fmap_app, Htr.
  - rewrite PyAccountsFacts.py_sell_shares_eq, PyTestAccountsFacts.py_sell_share_eq.
    assert ((quantity <=? 0)%Z = false) as -> by lia.
    rewrite Hhold.
    destruct (dict_get (PyTestAccounts.holdings b) symbol) as [held|]; simpl.
    + destruct (held <? quantity)%Z; [done|].
      destruct (float_of_int quantity) as [f|]; [|done].
      rewrite Hbal. repeat split; simpl. by rewrite fmap_app, Htr.
    + by assert ((0 <? quantity)%Z = true) as -> by lia.
Qed.

Lemma py_run_same calls a b :
  Forall passes_sign_checks calls →
  same_accounts a b →
  same_accounts (PyAccounts.run calls a) (PyTestAccounts.run calls b)
  ∧ PyAccounts.successes calls a = PyTestAccounts.successes calls b.
Proof.
  intros Hcalls. revert a b.
  induction Hcalls as [|c rest Hc _ IH]; intros a b Hsame; simpl; [done|].
  destruct (py_perform_same c a b Hc Hsame) as [Hnext ->].
  destruct (IH _ _ Hnext) as [Hend ->]. done.
Qed.

Lemma py_init_same name :
  same_accounts (PyAccounts.init name) (PyTestAccounts.init name).
Proof. done. Qed.

End PyLedgersFacts.

(** ** [output/app.py], with Python numbers *)

Module PyAppFacts.

Lemma py_except_relay {A} (body : method PyAccounts.Account A) text self :
  PyApp.except_ValueError (body;; ret text) self
  = match body self with
    | (self', Returned _) => (self', Returned text)
    | (self', Raised (ValueError msg)) => (self', Returned msg)
    | (self', Raised e) => (self', Raised e)
    end.
Proof.
  unfold PyApp.except_ValueError. run_method.
  destruct (body self) as [self' [a|e]]; [done|]. by destruct e.
Qed.

Lemma py_click_relay format_2f format_int c self :
  ∃ text,
    PyApp.click format_2f format_int c self
    = match PyAccounts.perform c self with
      | (self', Returned _) => (self', Returned text)
      | (self', Raised (ValueError msg)) => (self', Returned msg)
      | (self', Raised e) => (self', Raised e)
      end.
Proof.
  destruct c; simpl; eexists; apply py_except_relay.
Qed.

End PyAppFacts.

(** ** Profit and loss, with Python numbers *)

Module PyProfitFacts.



End PyProfitFacts.

(** ** The holdings are a dictionary: no symbol is listed twice *)

Module PyDictFacts.

Lemma dict_set_keys {V} (d : list (string * V)) key value k :
  k ∈ (dict_set d key value).*1 → k = key ∨ k ∈ d.*1.
Proof.
  induction d as [|[k' v'] d IH]; simpl.
  - intros ->%list_elem_of_singleton. by left.
  - case_decide; simpl; [by right|].
    intros [->|Hk]%elem_of_cons; [right; left|].
    destruct (IH Hk) as [->|Hin]; [by left|right; by right].
Qed.

Lemma dict_set_unique {V} (d : list (string * V)) key value :
  NoDup d.*1 → NoDup (dict_set d key value).*1.
Proof.
  induction d as [|[k' v'] d IH]; simpl.
  - intros _. apply NoDup_singleton.
  - intros [Hk' Hd]%NoDup_cons. case_decide; simpl.
    + by apply NoDup_cons.
    + apply NoDup_cons. split; [|by apply IH].
      intros [->|Hin]%dict_set_keys; done.
Qed.

Lemma dict_del_keys {V} (d : list (string * V)) key k :
  k ∈ (dict_del d key).*1 → k ∈ d.*1.
Proof.
  induction d as [|[k' v'] d IH]; simpl; [done|].
  case_decide; simpl.
  - intros Hk. right. by apply IH.
  - intros [->|Hk]%elem_of_cons; [left|right; by apply IH].
Qed.

Lemma dict_del_unique {V} (d : list (string * V)) key :
  NoDup d.*1 → NoDup (dict_del d key).*1.
Proof.
  induction d as [|[k' v'] d IH]; simpl; [done|].
  intros [Hk' Hd]%NoDup_cons. case_decide; simpl; [by apply IH|].
  apply NoDup_cons. split; [|by apply IH].
  intros Hin%dict_del_keys. done.
Qed.

Lemma py_perform_unique c self :
  NoDup (PyAccounts.holdings self).*1 →
  NoDup (PyAccounts.holdings (after (PyAccounts.perform c self))).*1.
Proof.
  intros Hd. destruct c as [amount|amount|symbol quantity|symbol quantity]; simpl.
  - rewrite PyAccountsFacts.py_deposit_eq. by destruct (amount <=? 0)%float.
  - rewrite PyAccountsFacts.py_withdraw_eq. destruct (amount <=? 0)%float; [done|].
    by destruct (_ <? _)%float.
  - rewrite PyAccountsFacts.py_buy_shares_eq. destruct (quantity <=? 0)%Z; [done|].
    destruct (float_of_int quantity); [|done]. cbv zeta.
    destruct (_ <? _)%float; [done|]. simpl. by apply dict_set_unique.
  - rewrite PyAccountsFacts.py_sell_shares_eq. destruct (quantity <=? 0)%Z; [done|].
    destruct (dict_get (PyAccounts.holdings self) symbol) as [held|]; [|done].
    destruct (held <? quantity)%Z; [done|].
    destruct (float_of_int quantity); [|done]. simpl.
    destruct (_ =? _)%Z; [by apply dict_del_unique|by apply dict_set_unique].
Qed.

Lemma py_run_unique name calls :
  NoDup (PyAccounts.holdings (PyAccounts.run calls (PyAccounts.init name))).*1.
Proof.
  assert (NoDup (PyAccounts.holdings (PyAccounts.init name)).*1) as Hinit
    by apply NoDup_nil_2.
  revert Hinit. generalize (PyAccounts.init name).
  induction calls as [|c rest IH]; intros self Hd; simpl; [done|].
  by apply IH, py_perform_unique.
Qed.

Lemma py_copy_perform_unique c self :
  NoDup (PyTestAccounts.holdings self).*1 →
  NoDup (PyTestAccounts.holdings (after (PyTestAccounts.perform c self))).*1.
Proof.
  intros Hd. destruct c as [amount|amount|symbol quantity|symbol quantity]; simpl.
  - done.
  - rewrite PyTestAccountsFacts.py_copy_withdraw_eq. by destruct (_ <? _)%float.
  - rewrite PyTestAccountsFacts.py_buy_share_eq.
    destruct (float_of_int quantity); [|done]. cbv zeta.
    destruct (_ <? _)%float; [done|]. simpl. by apply dict_set_unique.
  - rewrite PyTestAccountsFacts.py_sell_share_eq. destruct (_ <? quantity)%Z; [done|].
    destruct (float_of_int quantity); [|done].
    destruct (dict_get (PyTestAccounts.holdings self) symbol) as [held|]; [|done]. simpl.
    destruct (_ =? _)%Z; [by apply dict_del_unique|by apply dict_set_unique].
Qed.

Lemma py_copy_run_unique name calls :
  NoDup (PyTestAccounts.holdings
           (PyTestAccounts.run calls (PyTestAccounts.init name))).*1.
Proof.
  assert (NoDup (PyTestAccounts.holdings (PyTestAccounts.init name)).*1) as Hinit
    by apply NoDup_nil_2.
  revert Hinit. generalize (PyTestAccounts.init name).
  induction calls as [|c rest IH]; intros self Hd; simpl; [done|].
  by apply IH, py_copy_perform_unique.
Qed.

End PyDictFacts.

(** * The unit tests and scenarios of the repository, replayed *)

(** [test_accounts.py], on its own [Account]. *)

Example test_withdraw :
  PyTestAccounts.balance
    (PyTestAccounts.run [PyDeposit 100; PyWithdraw 50] (PyTestAccounts.init "user123"))
  = 50%float.
Proof. reflexivity. Qed.

Example test_withdraw_insufficient_funds :
  raised (PyTestAccounts.withdraw 50 (PyTestAccounts.init "user123"))
  = Some (Exception "Insufficient funds").
Proof. reflexivity. Qed.

Example test_buy_share :
  let account :=
    PyTestAccounts.run [PyDeposit 1000; PyBuy "AAPL" 2] (PyTestAccounts.init "user123") in
  PyTestAccounts.holdings account = [("AAPL", 2%Z)]
  ∧ PyTestAccounts.balance account = 700%float.
Proof. split; reflexivity. Qed.

Example test_sell_share :
  let account :=
    PyTestAccounts.run [PyDeposit 1000; PyBuy "AAPL" 2; PySell "AAPL" 1]
      (PyTestAccounts.init "user123") in
  PyTestAccounts.holdings account = [("AAPL", 1%Z)]
  ∧ PyTestAccounts.balance account = 850%float.
Proof. split; reflexivity. Qed.

Example test_sell_share_not_enough :
  raised
    (PyTestAccounts.sell_share "AAPL" 2
       (PyTestAccounts.run [PyDeposit 1000; PyBuy "AAPL" 1]
          (PyTestAccounts.init "user123")))
  = Some (Exception "Not enough shares to sell").
Proof. reflexivity. Qed.

Example test_calculate_portfolio_value :
  snd (PyTestAccounts.calculate_portfolio_value
         (PyTestAccounts.run [PyDeposit 1000; PyBuy "AAPL" 2]
            (PyTestAccounts.init "user123")))
  = Returned 300%float.
Proof. reflexivity. Qed.

(** [test_calculate_profit_loss] expects 300.0 here, and 200.0 after a
    further withdrawal of 100.0.  The method it tests computes cash plus
    positions minus deposits, which is 0.0 and then -100.0. *)
Example calculate_profit_loss_on_test_scenario :
  snd (PyTestAccounts.calculate_profit_loss float_sum
         (PyTestAccounts.run [PyDeposit 1000; PyBuy "AAPL" 2]
            (PyTestAccounts.init "user123")))
  = Returned 0%float
  ∧ snd (PyTestAccounts.calculate_profit_loss float_sum
           (PyTestAccounts.run [PyDeposit 1000; PyBuy "AAPL" 2; PyWithdraw 100]
              (PyTestAccounts.init "user123")))
    = Returned (-100)%float.
Proof. split; reflexivity. Qed.

(** The same session on [output/accounts.py], closed by a withdrawal that
    is refused. *)
Example accounts_session :
  let account :=
    PyAccounts.run [PyDeposit 1000; PyBuy "AAPL" 2; PySell "AAPL" 1; PyWithdraw 2000]
      (PyAccounts.init "User") in
  PyAccounts.holdings account = [("AAPL", 1%Z)]
  ∧ PyAccounts.balance account = 850%float
  ∧ PyAccounts.transactions account
    = [cash_record "Deposit" 1000; trade_record "Buy" "AAPL" 2;
       trade_record "Sell" "AAPL" 1]
  ∧ snd (PyAccounts.get_profit_loss float_sum account) = Returned 0%float.
Proof. repeat split. Qed.

(** [output/test_accounts.py], on its own [Account]. *)

Example test_deposit :
  let account :=
    after (PyOutputTestAccounts.deposit 500 (PyOutputTestAccounts.init "user1" 1000)) in
  PyOutputTestAccounts.balance account = 1500%float
  ∧ PyOutputTestAccounts.transactions account = [cash_record "deposit" 500].
Proof. split; reflexivity. Qed.

Example test_buy_shares :
  let account :=
    after (PyOutputTestAccounts.buy_shares "AAPL" 2
             (PyOutputTestAccounts.init "user1" 1000)) in
  PyOutputTestAccounts.balance account = 700%float
  ∧ PyOutputTestAccounts.holdings account = [("AAPL", 2%Z)]
  ∧ PyOutputTestAccounts.transactions account = [priced_record "buy" "AAPL" 2 150].
Proof. repeat split. Qed.

(** Sessions in which binary64 shows.  Three deposits of 0.1 leave
    0.30000000000000004, which is not the float 0.3. *)
Example three_small_deposits :
  let account :=
    PyAccounts.run
      [PyDeposit 0x1.999999999999ap-4; PyDeposit 0x1.999999999999ap-4;
       PyDeposit 0x1.999999999999ap-4]
      (PyAccounts.init "User") in
  PyAccounts.balance account = 0x1.3333333333334p-2%float
  ∧ (PyAccounts.balance account =? 0x1.3333333333333p-2)%float = false.
Proof. split; reflexivity. Qed.

(** On the partial ledger, 149.7 plus 0.3 is 150.0 and buys one AAPL. *)
Example rounded_up_to_a_share :
  let account :=
    PyOutputTestAccounts.run
      [PyOutputTestAccounts.AskDeposit 0x1.3333333333333p-2;
       PyOutputTestAccounts.AskBuy "AAPL" 1]
      (PyOutputTestAccounts.init "u" 0x1.2b66666666666p+7) in
  PyOutputTestAccounts.balance account = 0%float
  ∧ PyOutputTestAccounts.holdings account = [("AAPL", 1%Z)].
Proof. split; reflexivity. Qed.

(** A position too large for a float: three purchases of 10^308 shares of
    a symbol that costs nothing go through, and the portfolio can then no
    longer be valued. *)
Example position_without_a_value :
  let account :=
    PyAccounts.run
      [PyBuy "IBM" (10 ^ 308); PyBuy "IBM" (10 ^ 308); PyBuy "IBM" (10 ^ 308)]
      (PyAccounts.init "User") in
  PyAccounts.holdings account = [("IBM", (3 * 10 ^ 308)%Z)]
  ∧ snd (PyAccounts.get_profit_loss float_sum account)
    = Raised (OverflowError "int too large to convert to float").
Proof. split; by vm_compute. Qed.

(** The scenarios of the specification on the strict ledger: a first buy of
    10 AAPL at 150 out of 10000 of cash, and a second one at the same
    price. *)
Example trading_first_buy :
  let account :=
    after (Trading.buy {[ "AAPL" := 150 ]} "2023-01-01T00:00:00" "AAPL" 10
             (Trading.mkLedger 10000 ∅ [])) in
  Trading.cash account == 8500
  ∧ Trading.positions account !! "AAPL" = Some (Trading.mkPosition "AAPL" 10 150)
  ∧ Trading.total_amount <$> Trading.history account = [- scale 150 10].
Proof. repeat split. Qed.

Example trading_quote_unknown :
  raised (Trading.quote {[ "AAPL" := 150 ]} "INVALID" (Trading.mkLedger 10000 ∅ []))
  = Some (UnknownSymbolError "INVALID").
Proof. reflexivity. Qed.

(** * The properties of the specification *)




(** C3: [deposit] and [withdraw] reject every amount that is not positive,
    in every state, and then change neither cash nor history.
    [output/accounts.py] does so: both calls raise and hand the object
    back as it was.  The [deposit] of [test_accounts.py] has no such
    check: a deposit of [-1.0] returns normally, lowers the cash and
    appends a record. *)
Theorem nonpositive_amounts_and_unchecked_deposit :
  (∀ amount (self : Accounts.Account),
     amount <= 0 →
     Accounts.deposit amount self
       = (self, Raised (ValueError "Deposit amount must be greater than zero."))
     ∧ Accounts.withdraw amount self
       = (self, Raised (ValueError "Withdrawal amount must be greater than zero.")))
  ∧ (let opened := TestAccounts.init "user123" in
     let result := TestAccounts.deposit (-1) opened in
     succeeded result = true
     ∧ TestAccounts.balance (after result) == -1
     ∧ TestAccounts.transactions (after result) = [Deposit (-1)]).
Proof.
  split.
  - apply AccountsFacts.nonpositive_amount_rejected.
  - repeat split.
Qed.

Lemma nonpositive_amounts_and_unchecked_deposit_witness :
  let funded := Accounts.run [CallDeposit 100] (Accounts.init "User") in
  Accounts.deposit 0 funded
    = (funded, Raised (ValueError "Deposit amount must be greater than zero."))
  ∧ Accounts.withdraw 0 funded
    = (funded, Raised (ValueError "Withdrawal amount must be greater than zero.")).
Proof.
  apply (proj1 nonpositive_amounts_and_unchecked_deposit 0). by vm_compute.
Defined.

(** C4, as claimed: a withdrawal that goes through lowers the cash by
    exactly the amount.  [withdraw] of [output/accounts.py] refutes it: on
    an account holding 1e17, [withdraw(1.0)] returns normally and the cash
    is still 1e17, because [1e17 - 1.0] rounds back to 1e17. *)
Lemma withdraw_rounds_the_cash :
  ¬ (∀ amount (self : PyAccounts.Account),
       PyAccounts.reachable self →
       succeeded (PyAccounts.withdraw amount self) = true →
       float_value (PyAccounts.balance (after (PyAccounts.withdraw amount self)))
       == float_value (PyAccounts.balance self) - float_value amount).
Proof.
  intros H.
  specialize (H 1%float
                (PyAccounts.run [PyDeposit 100000000000000000] (PyAccounts.init "User"))
                (ex_intro _ "User" (ex_intro _ [PyDeposit 100000000000000000] eq_refl))
                eq_refl).
  vm_compute in H. discriminate.
Qed.

(** C4, amended: [withdraw] of [output/accounts.py], case by case, on
    binary64 floats and in every state reached from a new account.  An
    amount that is [<= 0] raises the invalid-amount [ValueError]; an
    amount above the cash raises the insufficient-funds [ValueError]; any
    other amount is let through: the call returns, the cash becomes the
    float [balance - amount], that is the difference rounded to the
    nearest float, and one withdrawal record is appended.  Withdrawing
    the whole cash, when it is positive and finite, leaves exactly 0.0. *)
Theorem withdraw_cases_in_binary64 amount (self : PyAccounts.Account) :
  PyAccounts.reachable self →
  ((amount <=? 0)%float = true →
     PyAccounts.withdraw amount self
     = (self, Raised (ValueError "Withdrawal amount must be greater than zero.")))
  ∧ ((amount <=? 0)%float = false → (PyAccounts.balance self <? amount)%float = true →
       PyAccounts.withdraw amount self
       = (self, Raised (ValueError "Insufficient funds to withdraw the specified amount.")))
  ∧ ((amount <=? 0)%float = false → (PyAccounts.balance self <? amount)%float = false →
       PyAccounts.withdraw amount self
       = (PyAccounts.mkAccount (PyAccounts.username self)
            (PyAccounts.balance self - amount) (PyAccounts.holdings self)
            (PyAccounts.transactions self ++ [cash_record "Withdrawal" amount]),
          Returned tt))
  ∧ (positive_finite (PyAccounts.balance self) = true →
       succeeded (PyAccounts.withdraw (PyAccounts.balance self) self) = true
       ∧ PyAccounts.balance (after (PyAccounts.withdraw (PyAccounts.balance self) self))
         = 0%float).
Proof.
  intros Hreach.
  destruct (PyAccountsFacts.py_reachable_invariant self Hreach) as [[Hbal _] _].
  rewrite !PyAccountsFacts.py_withdraw_eq, !(float_sub_below_zero _ _ Hbal).
  split; [|split; [|split]].
  - by intros ->.
  - by intros -> ->.
  - by intros -> ->.
  - intros Hpos. destruct (positive_finite_spec _ Hpos) as (m & e & Hx).
    assert ((PyAccounts.balance self <=? 0)%float = false) as ->
      by (by rewrite leb_spec, Hx).
    assert ((PyAccounts.balance self <? PyAccounts.balance self)%float = false) as ->.
    { rewrite ltb_spec, Hx. unfold SFltb. simpl.
      by rewrite Z.compare_refl, Pos.compare_cont_refl. }
    split; [done|]. simpl. by apply (float_sub_self _ false m e).
Qed.

Lemma withdraw_cases_in_binary64_witness :
  let funded := PyAccounts.run [PyDeposit 100] (PyAccounts.init "User") in
  PyAccounts.withdraw (-5) funded
    = (funded, Raised (ValueError "Withdrawal amount must be greater than zero."))
  ∧ PyAccounts.withdraw 101 funded
    = (funded, Raised (ValueError "Insufficient funds to withdraw the specified amount."))
  ∧ PyAccounts.balance (after (PyAccounts.withdraw 40 funded)) = 60%float
  ∧ PyAccounts.balance (after (PyAccounts.withdraw (PyAccounts.balance funded) funded))
    = 0%float.
Proof.
  cbv zeta.
  assert (PyAccounts.reachable (PyAccounts.run [PyDeposit 100] (PyAccounts.init "User")))
    as Hreach by (by exists "User", [PyDeposit 100%float]).
  repeat apply conj.
  - apply (proj1 (withdraw_cases_in_binary64 (-5) _ Hreach)). reflexivity.
  - apply (proj1 (proj2 (withdraw_cases_in_binary64 101 _ Hreach))); reflexivity.
  - rewrite (proj1 (proj2 (proj2 (withdraw_cases_in_binary64 40 _ Hreach))));
      reflexivity.
  - apply (proj2 (proj2 (proj2 (withdraw_cases_in_binary64 100 _ Hreach)))).
    reflexivity.
Defined.

(** C5, as claimed: a buy of a supported symbol that succeeds, followed at
    once by the sale of the same quantity, returns the cash to its value
    before the buy.  [output/accounts.py] refutes it: after a deposit of
    18014398509482140 (2^54 + 156), buying and selling one AAPL leaves
    18014398509482144, because the cash less 150.0 is rounded. *)
Lemma round_trip_rounds_the_cash :
  ¬ (∀ symbol quantity (self : PyAccounts.Account),
       PyAccounts.reachable self →
       is_Some (dict_get PyAccounts.prices symbol) →
       (0 < quantity)%Z →
       succeeded (PyAccounts.buy_shares symbol quantity self) = true →
       let bought := after (PyAccounts.buy_shares symbol quantity self) in
       (PyAccounts.balance (after (PyAccounts.sell_shares symbol quantity bought))
        =? PyAccounts.balance self)%float = true).
Proof.
  intros H.
  specialize (H "AAPL" 1%Z
                (PyAccounts.run [PyDeposit 18014398509482140] (PyAccounts.init "User"))
                (ex_intro _ "User" (ex_intro _ [PyDeposit 18014398509482140] eq_refl))
                (mk_is_Some _ _ eq_refl) eq_refl eq_refl).
  vm_compute in H. discriminate.
Qed.

(** C5, amended: from a state in which the shares held of the symbol are
    not negative, a buy that succeeds followed at once by the sale of the
    same quantity succeeds too, and the cash ends at the float
    [(cash - cost) + cost], where [cost] is the float product of the price
    and the quantity: the cash before the buy up to the rounding of the
    two operations.  Both ledgers behave so.  Every state
    [output/accounts.py] can reach is such a state; a state of
    [test_accounts.py] reached through the purchase of a negative quantity
    is not, and there the sale is refused. *)
Theorem buy_then_sell_in_binary64 symbol quantity :
  (∀ self : PyAccounts.Account,
     (0 <= default 0 (dict_get (PyAccounts.holdings self) symbol))%Z →
     succeeded (PyAccounts.buy_shares symbol quantity self) = true →
     let bought := after (PyAccounts.buy_shares symbol quantity self) in
     ∃ f, float_of_int quantity = Some f
          ∧ succeeded (PyAccounts.sell_shares symbol quantity bought) = true
          ∧ PyAccounts.balance (after (PyAccounts.sell_shares symbol quantity bought))
            = (PyAccounts.balance self - PyAccounts.get_share_price symbol * f
               + PyAccounts.get_share_price symbol * f)%float)
  ∧ (∀ self : PyAccounts.Account,
       PyAccounts.reachable self →
       (0 <= default 0 (dict_get (PyAccounts.holdings self) symbol))%Z)
  ∧ (∀ self : PyTestAccounts.Account,
       (0 <= default 0 (dict_get (PyTestAccounts.holdings self) symbol))%Z →
       succeeded (PyTestAccounts.buy_share symbol quantity self) = true →
       let bought := after (PyTestAccounts.buy_share symbol quantity self) in
       ∃ f, float_of_int quantity = Some f
            ∧ succeeded (PyTestAccounts.sell_share symbol quantity bought) = true
            ∧ PyTestAccounts.balance (after (PyTestAccounts.sell_share symbol quantity bought))
              = (PyTestAccounts.balance self - PyTestAccounts.get_share_price symbol * f
                 + PyTestAccounts.get_share_price symbol * f)%float)
  ∧ (let short := PyTestAccounts.run [PyBuy "AAPL" (-5)] (PyTestAccounts.init "user123") in
     let bought := after (PyTestAccounts.buy_share "AAPL" 2 short) in
     succeeded (PyTestAccounts.buy_share "AAPL" 2 short) = true
     ∧ raised (PyTestAccounts.sell_share "AAPL" 2 bought)
       = Some (Exception "Not enough shares to sell")).
Proof.
  split; [|split; [|split]].
  - intros self Hheld. rewrite PyAccountsFacts.py_buy_shares_eq.
    destruct (quantity <=? 0)%Z eqn:Hq; [done|].
    destruct (float_of_int quantity) as [f|] eqn:Hf; [|done]. cbv zeta.
    destruct (_ <? _)%float; [done|]. intros _. exists f. split; [done|].
    rewrite PyAccountsFacts.py_sell_shares_eq, Hq. cbn.
    rewrite dict_get_set_eq, Hf.
    by assert ((default 0 (dict_get (PyAccounts.holdings self) symbol) + quantity
                <? quantity)%Z = false) as -> by lia.
  - intros self Hreach.
    destruct (PyAccountsFacts.py_reachable_invariant self Hreach) as [[_ Hpos] _].
    destruct (dict_get (PyAccounts.holdings self) symbol) as [held|] eqn:Hheld; [|done].
    specialize (Hpos _ _ Hheld). simpl. lia.
  - intros self Hheld. rewrite PyTestAccountsFacts.py_buy_share_eq.
    destruct (float_of_int quantity) as [f|] eqn:Hf; [|done]. cbv zeta.
    destruct (_ <? _)%float; [done|]. intros _. exists f. split; [done|].
    rewrite PyTestAccountsFacts.py_sell_share_eq. cbn.
    rewrite dict_get_set_eq, Hf. cbn.
    by assert ((default 0 (dict_get (PyTestAccounts.holdings self) symbol) + quantity
                <? quantity)%Z = false) as -> by lia.
  - split; reflexivity.
Qed.

Lemma buy_then_sell_in_binary64_witness :
  let funded :=
    PyAccounts.run [PyDeposit 1000; PyBuy "AAPL" 2] (PyAccounts.init "User") in
  let bought := after (PyAccounts.buy_shares "AAPL" 3 funded) in
  ∃ f, float_of_int 3 = Some f
       ∧ succeeded (PyAccounts.sell_shares "AAPL" 3 bought) = true
       ∧ PyAccounts.balance (after (PyAccounts.sell_shares "AAPL" 3 bought))
         = (PyAccounts.balance funded - PyAccounts.get_share_price "AAPL" * f
            + PyAccounts.get_share_price "AAPL" * f)%float.
Proof.
  apply (proj1 (buy_then_sell_in_binary64 "AAPL" 3)).
  - by vm_compute.
  - reflexivity.
Defined.



(** C7: two buys of one symbol, [q1] shares at price [p1] and then [q2]
    more at price [p2], leave a position of [q1 + q2] shares whose
    average cost is [(q1*p1 + q2*p2) / (q1 + q2)], as an exact rational.
    A sale never changes the average cost of a position it leaves in
    place, and the cash methods do not touch the positions.  The ledger is
    [TradingAccount], modelled from the specification: the [Account]
    classes of the sources record no average cost at all. *)
Theorem average_cost_is_weighted :
  (∀ table1 table2 now1 now2 sym q1 q2 p1 p2 (self : Trading.Ledger),
     Trading.positions self !! sym = None →
     table1 !! upper sym = Some p1 →
     table2 !! upper sym = Some p2 →
     succeeded (Trading.buy table1 now1 sym q1 self) = true →
     let first := after (Trading.buy table1 now1 sym q1 self) in
     succeeded (Trading.buy table2 now2 sym q2 first) = true →
     ∃ pos,
       Trading.positions (after (Trading.buy table2 now2 sym q2 first)) !! sym = Some pos
       ∧ Trading.shares pos = (q1 + q2)%Z
       ∧ Trading.avg_cost pos
         == (inject_Z q1 * p1 + inject_Z q2 * p2) / inject_Z (q1 + q2))
  ∧ (∀ table now sym qty (self : Trading.Ledger) sym' pos pos',
       Trading.positions self !! sym' = Some pos →
       Trading.positions (after (Trading.sell table now sym qty self)) !! sym' = Some pos' →
       Trading.avg_cost pos' = Trading.avg_cost pos)
  ∧ (∀ now amount (self : Trading.Ledger),
       Trading.positions (after (Trading.deposit now amount self)) = Trading.positions self
       ∧ Trading.positions (after (Trading.withdraw now amount self)) = Trading.positions self).
Proof.
  split; [|split].
  - intros table1 table2 now1 now2 sym q1 q2 p1 p2 self Hnew Hp1 Hp2.
    rewrite TradingFacts.buy_eq, Hp1, Hnew.
    destruct (q1 <=? 0)%Z; [done|].
    destruct (Qltb _ _); [done|]. intros _. cbn.
    rewrite TradingFacts.buy_eq, Hp2. cbn. rewrite lookup_insert_eq.
    destruct (q2 <=? 0)%Z; [done|].
    destruct (Qltb _ _); [done|]. intros _. cbn.
    rewrite lookup_insert_eq. eexists. split; [done|]. cbn. split; [done|].
    reflexivity.
  - apply TradingFacts.sell_keeps_avg_cost.
  - apply TradingFacts.cash_moves_keep_positions.
Qed.

Lemma average_cost_is_weighted_witness :
  let opened := Trading.mkLedger 10000 ∅ [] in
  let first := after (Trading.buy {[ "AAPL" := 150 ]} "2023-01-01T00:00:00" "AAPL" 10 opened) in
  ∃ pos,
    Trading.positions
      (after (Trading.buy {[ "AAPL" := 160 ]} "2023-01-01T00:00:00" "AAPL" 10 first))
      !! "AAPL" = Some pos
    ∧ Trading.shares pos = 20%Z
    ∧ Trading.avg_cost pos == (inject_Z 10 * 150 + inject_Z 10 * 160) / inject_Z 20.
Proof.
  apply (proj1 average_cost_is_weighted
           {[ "AAPL" := 150 ]} {[ "AAPL" := 160 ]} _ _ "AAPL" 10%Z 10%Z 150 160);
    reflexivity.
Defined.

(** C8, as claimed: every spelling of a supported symbol gets the price of
    the symbol.  [get_share_price] of [output/accounts.py] refutes it:
    ["aapl"] is a spelling of ["AAPL"] and is priced 0.0, not 150.0. *)
Lemma get_share_price_case_sensitive :
  ¬ (∀ s t, is_Some (Accounts.prices !! s) → same_symbol t s →
            Accounts.get_share_price t == Accounts.get_share_price s).
Proof.
  intros H. specialize (H "AAPL" "aapl" (mk_is_Some _ _ eq_refl) eq_refl).
  vm_compute in H. discriminate.
Qed.

(** C8, amended: [get_share_price] looks the symbol up exactly as it is
    given, without normalising its case.  The upper-case spelling of a
    supported symbol gets its table price (150.0, 700.0, 2800.0 for AAPL,
    TSLA, GOOGL) and every other spelling of it gets 0.0, the price of
    an unknown symbol. *)
Theorem get_share_price_exact_spelling :
  Accounts.get_share_price "AAPL" = 150
  ∧ Accounts.get_share_price "TSLA" = 700
  ∧ Accounts.get_share_price "GOOGL" = 2800
  ∧ (∀ s t, is_Some (Accounts.prices !! s) → same_symbol t s → t ≠ s →
            Accounts.get_share_price t = 0).
Proof.
  do 3 (split; [reflexivity|]).
  intros s t Hs Hst Hne.
  apply AccountsFacts.get_share_price_unknown.
  destruct (Accounts.prices !! t) eqn:Ht; [|done].
  exfalso. apply Hne. unfold same_symbol in Hst.
  rewrite (AccountsFacts.priced_symbols_upper s Hs) in Hst.
  by rewrite (AccountsFacts.priced_symbols_upper t) in Hst.
Qed.

Lemma get_share_price_exact_spelling_witness :
  Accounts.get_share_price "Tsla" = 0.
Proof.
  apply (proj2 (proj2 (proj2 get_share_price_exact_spelling)) "TSLA" "Tsla").
  - eexists. reflexivity.
  - reflexivity.
  - discriminate.
Defined.



(** C10, as claimed: buying a positive quantity of a symbol outside the
    price table succeeds on any account.  [buy_shares] of
    [output/accounts.py] refutes it: for 10^400 shares of IBM the product
    [0.0 * quantity] raises [OverflowError], since the quantity has no
    float. *)
Lemma unknown_symbol_can_overflow :
  ¬ (∀ symbol quantity (self : PyAccounts.Account),
       dict_get PyAccounts.prices symbol = None →
       (0 < quantity)%Z →
       succeeded (PyAccounts.buy_shares symbol quantity self) = true).
Proof.
  intros H.
  specialize (H "IBM" (10 ^ 400)%Z (PyAccounts.init "User") eq_refl eq_refl).
  vm_compute in H. discriminate.
Qed.

(** C10, amended: a symbol outside the price table is quoted 0.0.  For a
    positive quantity of it, on any account reached from a new one:
    when the quantity has a float, [buy_shares] succeeds whatever the
    balance, leaves the balance as it is, bit for bit, adds the quantity
    to the shares held of the symbol and appends one buy record; when the
    quantity is too large to have one, the call raises [OverflowError] and
    changes nothing. *)
Theorem unknown_symbol_costs_nothing symbol quantity (self : PyAccounts.Account) :
  PyAccounts.reachable self →
  dict_get PyAccounts.prices symbol = None →
  (0 < quantity)%Z →
  PyAccounts.get_share_price symbol = 0%float
  ∧ (is_Some (float_of_int quantity) →
       PyAccounts.buy_shares symbol quantity self
       = (PyAccounts.mkAccount (PyAccounts.username self) (PyAccounts.balance self)
            (dict_set (PyAccounts.holdings self) symbol
               (default 0 (dict_get (PyAccounts.holdings self) symbol) + quantity)%Z)
            (PyAccounts.transactions self ++ [trade_record "Buy" symbol quantity]),
          Returned tt))
  ∧ (float_of_int quantity = None →
       PyAccounts.buy_shares symbol quantity self
       = (self, Raised (OverflowError "int too large to convert to float"))).
Proof.
  intros Hreach Hunknown Hq.
  destruct (PyAccountsFacts.py_reachable_invariant self Hreach) as [[Hbal _] _].
  pose proof (PyAccountsFacts.py_price_unknown symbol Hunknown) as Hprice.
  split; [done|].
  rewrite PyAccountsFacts.py_buy_shares_eq, Hprice.
  assert ((quantity <=? 0)%Z = false) as -> by lia.
  split.
  - intros [f Hf]. rewrite Hf. cbv zeta.
    rewrite (float_mul_zero f) by (apply (float_of_int_nonneg quantity); [lia|done]).
    by rewrite Hbal, float_sub_zero.
  - by intros ->.
Qed.

Lemma unknown_symbol_costs_nothing_witness :
  let funded := PyAccounts.run [PyDeposit 100] (PyAccounts.init "User") in
  PyAccounts.get_share_price "IBM" = 0%float
  ∧ (is_Some (float_of_int 7) →
       PyAccounts.buy_shares "IBM" 7 funded
       = (PyAccounts.mkAccount "User" 100 [("IBM", 7%Z)]
            [cash_record "Deposit" 100; trade_record "Buy" "IBM" 7],
          Returned tt))
  ∧ (float_of_int 7 = None →
       PyAccounts.buy_shares "IBM" 7 funded
       = (funded, Raised (OverflowError "int too large to convert to float"))).
Proof.
  apply (unknown_symbol_costs_nothing "IBM" 7
           (PyAccounts.run [PyDeposit 100] (PyAccounts.init "User"))).
  - by exists "User", [PyDeposit 100%float].
  - reflexivity.
  - reflexivity.
Defined.

(** * Further properties of the ledgers *)


(** X2: the cash of an account can be recomputed from its history alone.
    In every state reached from a new account, on either ledger, the
    balance is what the records of the history give when they are applied
    to 0.0 one after the other with the float operations of the methods:
    plus the amount of a deposit, minus that of a withdrawal, minus price
    times quantity for a buy and plus it for a sell, at the prices of the
    table.  Each ledger is read with its own tags. *)
Theorem cash_is_replayed_in_binary64 :
  (∀ name calls,
     let self := PyAccounts.run calls (PyAccounts.init name) in
     replayed accounts_tags PyAccounts.get_share_price (PyAccounts.transactions self) 0
     = Some (PyAccounts.balance self))
  ∧ (∀ name calls,
       let self := PyTestAccounts.run calls (PyTestAccounts.init name) in
       replayed copy_tags PyTestAccounts.get_share_price
         (PyTestAccounts.transactions self) 0
       = Some (PyTestAccounts.balance self)).
Proof.
  split; intros name calls self.
  - by apply PyAccountsFacts.py_run_replayed.
  - by apply PyTestAccountsFacts.py_copy_run_replayed.
Qed.





(** X8: the ledger of [test_accounts.py] keeps the invariants of the data
    model as long as every call it is given passes the sign checks of
    [output/accounts.py]: after such a session on a new account the cash
    is not below zero and every position holds a positive number of
    shares. *)
Theorem copy_is_sound_on_checked_sessions name calls :
  Forall passes_sign_checks calls →
  let self := PyTestAccounts.run calls (PyTestAccounts.init name) in
  well_kept (PyTestAccounts.balance self) (PyTestAccounts.holdings self).
Proof.
  intros Hcalls self.
  destruct (PyLedgersFacts.py_run_same calls _ _ Hcalls (PyLedgersFacts.py_init_same name))
    as [(Hbal & Hhold & _) _].
  fold self in Hbal, Hhold. rewrite <- Hbal, <- Hhold.
  apply PyAccountsFacts.py_run_invariant, PyAccountsFacts.py_init_invariant.
Qed.

Lemma copy_is_sound_on_checked_sessions_witness :
  let self :=
    PyTestAccounts.run [PyDeposit 1000; PyBuy "AAPL" 2; PySell "AAPL" 1]
      (PyTestAccounts.init "user123") in
  well_kept (PyTestAccounts.balance self) (PyTestAccounts.holdings self).
Proof.
  apply (copy_is_sound_on_checked_sessions "user123"
           [PyDeposit 1000; PyBuy "AAPL" 2; PySell "AAPL" 1]).
  repeat constructor.
Defined.

(** X9: selling a symbol that is not held, on the ledger of
    [test_accounts.py].  A positive quantity is refused with the
    not-enough-shares [Exception].  A quantity that is not positive passes
    that check; the call then dies on the product of the price and the
    quantity, with an [OverflowError], when the quantity has no float,
    and otherwise on the missing key, with a [KeyError].  In each case the
    account is unchanged. *)
Theorem selling_a_symbol_not_held_in_copy symbol quantity (self : PyTestAccounts.Account) :
  dict_get (PyTestAccounts.holdings self) symbol = None →
  ((0 < quantity)%Z →
     PyTestAccounts.sell_share symbol quantity self
     = (self, Raised (Exception "Not enough shares to sell")))
  ∧ ((quantity <= 0)%Z → float_of_int quantity = None →
       PyTestAccounts.sell_share symbol quantity self
       = (self, Raised (OverflowError "int too large to convert to float")))
  ∧ ((quantity <= 0)%Z → is_Some (float_of_int quantity) →
       PyTestAccounts.sell_share symbol quantity self
       = (self, Raised (KeyError symbol))).
Proof.
  intros Hnone. rewrite PyTestAccountsFacts.py_sell_share_eq, Hnone. simpl.
  split; [|split].
  - intros Hq. by assert ((0 <? quantity)%Z = true) as -> by lia.
  - intros Hq ->. by assert ((0 <? quantity)%Z = false) as -> by lia.
  - intros Hq [f ->]. by assert ((0 <? quantity)%Z = false) as -> by lia.
Qed.

Lemma selling_a_symbol_not_held_in_copy_witness :
  PyTestAccounts.sell_share "TSLA" 1 (PyTestAccounts.init "user123")
  = (PyTestAccounts.init "user123", Raised (Exception "Not enough shares to sell"))
  ∧ PyTestAccounts.sell_share "TSLA" (- 10 ^ 400) (PyTestAccounts.init "user123")
    = (PyTestAccounts.init "user123",
       Raised (OverflowError "int too large to convert to float"))
  ∧ PyTestAccounts.sell_share "TSLA" 0 (PyTestAccounts.init "user123")
    = (PyTestAccounts.init "user123", Raised (KeyError "TSLA")).
Proof.
  split; [|split].
  - apply (proj1 (selling_a_symbol_not_held_in_copy "TSLA" 1
                    (PyTestAccounts.init "user123") eq_refl)).
    reflexivity.
  - apply (proj1 (proj2 (selling_a_symbol_not_held_in_copy "TSLA" (- 10 ^ 400)
                           (PyTestAccounts.init "user123") eq_refl))).
    + by vm_compute.
    + by vm_compute.
  - apply (proj2 (proj2 (selling_a_symbol_not_held_in_copy "TSLA" 0
                           (PyTestAccounts.init "user123") eq_refl))).
    + discriminate.
    + eexists. reflexivity.
Defined.

(** X10: the callbacks of [output/app.py] catch [ValueError] and nothing
    else.  A click leaves the account exactly as the ledger call leaves
    it.  When the ledger call returns, the callback returns a text; when
    it raises a [ValueError], the callback returns its message and the
    account is untouched; the one other exception of the ledger, the
    [OverflowError] of a quantity that has no float, leaves the
    callback, again with the account untouched.  This holds whatever the
    two formatters are. *)
Theorem callbacks_catch_only_ValueError format_2f format_int c (self : PyAccounts.Account) :
  after (PyApp.click format_2f format_int c self) = after (PyAccounts.perform c self)
  ∧ (succeeded (PyAccounts.perform c self) = true →
       ∃ text, snd (PyApp.click format_2f format_int c self) = Returned text)
  ∧ (∀ e, raised (PyAccounts.perform c self) = Some e →
       (∃ msg, e = ValueError msg
               ∧ PyApp.click format_2f format_int c self = (self, Returned msg))
       ∨ (e = OverflowError "int too large to convert to float"
          ∧ PyApp.click format_2f format_int c self = (self, Raised e))).
Proof.
  destruct (PyAppFacts.py_click_relay format_2f format_int c self) as [text ->].
  pose proof (PyAccountsFacts.py_perform_raises c self) as Hclass.
  pose proof (PyAccountsFacts.py_perform_raised c self) as Hatomic.
  destruct (PyAccounts.perform c self) as [self' [[]|e]]; simpl in *.
  - split; [done|]. split; [by eexists|done].
  - rewrite (Hatomic _ eq_refl).
    destruct (Hclass e eq_refl) as [[msg ->]| ->].
    + split; [done|]. split; [done|]. intros e [= <-]. left. by exists msg.
    + split; [done|]. split; [done|]. intros e [= <-]. by right.
Qed.

Lemma callbacks_catch_only_ValueError_witness :
  (∃ msg,
     ValueError "Not enough shares to sell." = ValueError msg
     ∧ PyApp.click (λ _, "") (λ _, "") (PySell "AAPL" 1) PyApp.account
       = (PyApp.account, Returned msg))
  ∨ (ValueError "Not enough shares to sell."
     = OverflowError "int too large to convert to float"
     ∧ PyApp.click (λ _, "") (λ _, "") (PySell "AAPL" 1) PyApp.account
       = (PyApp.account, Raised (ValueError "Not enough shares to sell."))).
Proof.
  apply (proj2 (proj2 (callbacks_catch_only_ValueError (λ _, "") (λ _, "")
                         (PySell "AAPL" 1) PyApp.account))).
  reflexivity.
Defined.

(** X11: [buy_shares] of [output/accounts.py], case by case, on Python
    numbers.  The quantity is checked first: one that is not positive is
    refused.  A positive quantity that has no float makes the product of
    price and quantity raise [OverflowError].  Otherwise the cost is the
    float product; a cost above the cash is refused; any other cost goes
    through, the cash becomes the float [balance - cost], the quantity is
    added to the shares held of the symbol and one buy record is
    appended. *)
Theorem buy_shares_cases_in_binary64 symbol quantity (self : PyAccounts.Account) :
  ((quantity <= 0)%Z →
     PyAccounts.buy_shares symbol quantity self
     = (self, Raised (ValueError "Quantity must be greater than zero.")))
  ∧ ((0 < quantity)%Z → float_of_int quantity = None →
       PyAccounts.buy_shares symbol quantity self
       = (self, Raised (OverflowError "int too large to convert to float")))
  ∧ (∀ f, (0 < quantity)%Z → float_of_int quantity = Some f →
       (PyAccounts.balance self <? PyAccounts.get_share_price symbol * f)%float = true →
       PyAccounts.buy_shares symbol quantity self
       = (self, Raised (ValueError "Insufficient funds to buy shares.")))
  ∧ (∀ f, (0 < quantity)%Z → float_of_int quantity = Some f →
       (PyAccounts.balance self <? PyAccounts.get_share_price symbol * f)%float = false →
       PyAccounts.buy_shares symbol quantity self
       = (PyAccounts.mkAccount (PyAccounts.username self)
            (PyAccounts.balance self - PyAccounts.get_share_price symbol * f)
            (dict_set (PyAccounts.holdings self) symbol
               (default 0 (dict_get (PyAccounts.holdings self) symbol) + quantity)%Z)
            (PyAccounts.transactions self ++ [trade_record "Buy" symbol quantity]),
          Returned tt)).
Proof.
  rewrite !PyAccountsFacts.py_buy_shares_eq. split; [|split; [|split]].
  - intros Hq. by assert ((quantity <=? 0)%Z = true) as -> by lia.
  - intros Hq ->. by assert ((quantity <=? 0)%Z = false) as -> by lia.
  - intros f Hq -> Hlt. assert ((quantity <=? 0)%Z = false) as -> by lia.
    cbv zeta. by rewrite Hlt.
  - intros f Hq -> Hlt. assert ((quantity <=? 0)%Z = false) as -> by lia.
    cbv zeta. by rewrite Hlt.
Qed.

Lemma buy_shares_cases_in_binary64_witness :
  let funded := PyAccounts.run [PyDeposit 300] (PyAccounts.init "User") in
  PyAccounts.buy_shares "AAPL" (-1) funded
    = (funded, Raised (ValueError "Quantity must be greater than zero."))
  ∧ PyAccounts.buy_shares "AAPL" (10 ^ 400) funded
    = (funded, Raised (OverflowError "int too large to convert to float"))
  ∧ PyAccounts.buy_shares "AAPL" 3 funded
    = (funded, Raised (ValueError "Insufficient funds to buy shares."))
  ∧ PyAccounts.buy_shares "AAPL" 2 funded
    = (PyAccounts.mkAccount "User" 0 [("AAPL", 2%Z)]
         [cash_record "Deposit" 300; trade_record "Buy" "AAPL" 2],
       Returned tt).
Proof.
  cbv zeta. split; [|split; [|split]].
  - apply (proj1 (buy_shares_cases_in_binary64 "AAPL" (-1) _)). discriminate.
  - apply (proj1 (proj2 (buy_shares_cases_in_binary64 "AAPL" (10 ^ 400) _)));
      by vm_compute.
  - apply (proj1 (proj2 (proj2 (buy_shares_cases_in_binary64 "AAPL" 3 _))) 3%float);
      by vm_compute.
  - apply (proj2 (proj2 (proj2
             (buy_shares_cases_in_binary64 "AAPL" 2
                (PyAccounts.run [PyDeposit 300] (PyAccounts.init "User"))))) 2%float);
      by vm_compute.
Defined.

(** X12: [sell_shares] of [output/accounts.py], case by case, on Python
    numbers.  A quantity that is not positive is refused; so is the sale
    of a symbol that is not held and the sale of more shares than are
    held, both with the not-enough-shares message.  A quantity within the
    shares held that has no float makes the product of price and
    quantity raise [OverflowError].  Otherwise the sale goes through:
    the cash becomes the float [balance + price * quantity], the
    position loses the quantity and is removed when nothing is left of
    it, and one sell record is appended. *)
Theorem sell_shares_cases_in_binary64 symbol quantity (self : PyAccounts.Account) :
  ((quantity <= 0)%Z →
     PyAccounts.sell_shares symbol quantity self
     = (self, Raised (ValueError "Quantity must be greater than zero.")))
  ∧ ((0 < quantity)%Z → dict_get (PyAccounts.holdings self) symbol = None →
       PyAccounts.sell_shares symbol quantity self
       = (self, Raised (ValueError "Not enough shares to sell.")))
  ∧ (∀ held,
       (0 < quantity)%Z → dict_get (PyAccounts.holdings self) symbol = Some held →
       (held < quantity)%Z →
       PyAccounts.sell_shares symbol quantity self
       = (self, Raised (ValueError "Not enough shares to sell.")))
  ∧ (∀ held,
       (0 < quantity)%Z → dict_get (PyAccounts.holdings self) symbol = Some held →
       (quantity <= held)%Z → float_of_int quantity = None →
       PyAccounts.sell_shares symbol quantity self
       = (self, Raised (OverflowError "int too large to convert to float")))
  ∧ (∀ held f,
       (0 < quantity)%Z → dict_get (PyAccounts.holdings self) symbol = Some held →
       (quantity <= held)%Z → float_of_int quantity = Some f →
       PyAccounts.sell_shares symbol quantity self
       = (PyAccounts.mkAccount (PyAccounts.username self)
            (PyAccounts.balance self + PyAccounts.get_share_price symbol * f)
            (if (held - quantity =? 0)%Z
             then dict_del (PyAccounts.holdings self) symbol
             else dict_set (PyAccounts.holdings self) symbol (held - quantity)%Z)
            (PyAccounts.transactions self ++ [trade_record "Sell" symbol quantity]),
          Returned tt)).
Proof.
  rewrite !PyAccountsFacts.py_sell_shares_eq. split; [|split; [|split; [|split]]].
  - intros Hq. by assert ((quantity <=? 0)%Z = true) as -> by lia.
  - intros Hq ->. by assert ((quantity <=? 0)%Z = false) as -> by lia.
  - intros held Hq -> Hlt. assert ((quantity <=? 0)%Z = false) as -> by lia.
    by assert ((held <? quantity)%Z = true) as -> by lia.
  - intros held Hq -> Hle ->. assert ((quantity <=? 0)%Z = false) as -> by lia.
    by assert ((held <? quantity)%Z = false) as -> by lia.
  - intros held f Hq -> Hle ->. assert ((quantity <=? 0)%Z = false) as -> by lia.
    by assert ((held <? quantity)%Z = false) as -> by lia.
Qed.

Lemma sell_shares_cases_in_binary64_witness :
  let funded :=
    PyAccounts.run [PyDeposit 1000; PyBuy "AAPL" 3; PyBuy "IBM" (10 ^ 308);
                    PyBuy "IBM" (10 ^ 308)]
      (PyAccounts.init "User") in
  PyAccounts.sell_shares "TSLA" 1 funded
    = (funded, Raised (ValueError "Not enough shares to sell."))
  ∧ PyAccounts.sell_shares "AAPL" 4 funded
    = (funded, Raised (ValueError "Not enough shares to sell."))
  ∧ PyAccounts.sell_shares "IBM" (2 * 10 ^ 308) funded
    = (funded, Raised (OverflowError "int too large to convert to float"))
  ∧ PyAccounts.balance (after (PyAccounts.sell_shares "AAPL" 3 funded)) = 1000%float
  ∧ dict_get (PyAccounts.holdings (after (PyAccounts.sell_shares "AAPL" 3 funded))) "AAPL"
    = None.
Proof.
  cbv zeta. split; [|split; [|split]].
  - apply (proj1 (proj2 (sell_shares_cases_in_binary64 "TSLA" 1 _))); reflexivity.
  - apply (proj1 (proj2 (proj2 (sell_shares_cases_in_binary64 "AAPL" 4 _))) 3%Z);
      reflexivity.
  - apply (proj1 (proj2 (proj2 (proj2
             (sell_shares_cases_in_binary64 "IBM" (2 * 10 ^ 308) _))))
             (2 * 10 ^ 308)%Z); by vm_compute.
  - rewrite (proj2 (proj2 (proj2 (proj2
               (sell_shares_cases_in_binary64 "AAPL" 3 _)))) 3%Z 3%float);
      by vm_compute.
Defined.



(** X15: the portfolio value depends on the order in which the positions
    were opened.  Two sessions of [output/accounts.py] that differ only in
    the order of two buys end with the same cash and the same positions,
    held in a different order, and [get_portfolio_value], whose running
    total follows that order, returns 18014398509482836 (2^54 + 852) after
    the one and 18014398509482840 (2^54 + 856) after the other. *)
Theorem portfolio_value_depends_on_order :
  let first :=
    PyAccounts.run [PyDeposit 1000; PyBuy "AAPL" 1; PyBuy "TSLA" 1;
                    PyDeposit 18014398509481838]
      (PyAccounts.init "User") in
  let second :=
    PyAccounts.run [PyDeposit 1000; PyBuy "TSLA" 1; PyBuy "AAPL" 1;
                    PyDeposit 18014398509481838]
      (PyAccounts.init "User") in
  PyAccounts.balance first = PyAccounts.balance second
  ∧ (∀ symbol, dict_get (PyAccounts.holdings first) symbol
               = dict_get (PyAccounts.holdings second) symbol)
  ∧ snd (PyAccounts.get_portfolio_value first) = Returned 18014398509482836%float
  ∧ snd (PyAccounts.get_portfolio_value second) = Returned 18014398509482840%float.
Proof.
  intros first second.
  assert (PyAccounts.holdings first = [("AAPL", 1%Z); ("TSLA", 1%Z)]) as Hfirst
    by reflexivity.
  assert (PyAccounts.holdings second = [("TSLA", 1%Z); ("AAPL", 1%Z)]) as Hsecond
    by reflexivity.
  split; [reflexivity|]. split; [|split; reflexivity].
  intros symbol. rewrite Hfirst, Hsecond. simpl. by repeat case_decide.
Qed.

(** X16: creating the account anew leads to no new state.  Whatever a
    session that also calls [create_account] ends in, a session of
    deposits, withdrawals, buys and sells on a new account ends in it
    too; so the cash is not below zero and no position is empty there. *)
Theorem create_account_reaches_no_new_state steps name :
  let self := PyAccounts.run_steps steps (PyAccounts.init name) in
  PyAccounts.reachable self
  ∧ well_kept (PyAccounts.balance self) (PyAccounts.holdings self).
Proof.
  intros self.
  assert (PyAccounts.reachable self) as Hreach.
  { apply PyAccountsFacts.py_run_steps_reachable. by exists name, []. }
  split; [done|]. by apply PyAccountsFacts.py_reachable_invariant.
Qed.

(** X17: the cash of the partial ledger of [output/test_accounts.py] never
    goes below zero.  An account opened with an initial deposit that is
    not below zero keeps a balance that is not below zero through any
    session of deposits and buys, also of buys of no or of a negative
    number of shares, which its [buy_shares] does not refuse. *)
Theorem partial_ledger_cash_not_below_zero user_id initial requests :
  (initial <? 0)%float = false →
  (PyOutputTestAccounts.balance
     (PyOutputTestAccounts.run requests (PyOutputTestAccounts.init user_id initial))
   <? 0)%float = false.
Proof.
  apply (PyOutputTestAccountsFacts.py_partial_run_balance requests
           (PyOutputTestAccounts.init user_id initial)).
Qed.

Lemma partial_ledger_cash_not_below_zero_witness :
  (PyOutputTestAccounts.balance
     (PyOutputTestAccounts.run
        [PyOutputTestAccounts.AskBuy "AAPL" 2; PyOutputTestAccounts.AskBuy "TSLA" (-1);
         PyOutputTestAccounts.AskBuy "GOOGL" 1]
        (PyOutputTestAccounts.init "user1" 1000))
   <? 0)%float = false.
Proof.
  apply (partial_ledger_cash_not_below_zero "user1" 1000). reflexivity.
Defined.

(** X18: the partial ledger of [output/test_accounts.py] keeps the initial
    deposit apart from the history.  Through any session the recorded
    initial deposit never changes, each buy record carries the table price of its symbol, and
    the balance is what the records give when they are applied to the
    initial deposit one after the other with the float operations of
    the methods: plus the amount of a deposit, minus price times quantity
    of a buy at the price on the record. *)
Theorem partial_ledger_cash_is_replayed user_id initial requests :
  let self :=
    PyOutputTestAccounts.run requests (PyOutputTestAccounts.init user_id initial) in
  PyOutputTestAccounts.initial_deposit self = initial
  ∧ Forall priced_at_table (PyOutputTestAccounts.transactions self)
  ∧ priced_replayed (PyOutputTestAccounts.transactions self) initial
    = Some (PyOutputTestAccounts.balance self).
Proof.
  intros self.
  by apply (PyOutputTestAccountsFacts.py_partial_run_keeps requests
              (PyOutputTestAccounts.init user_id initial)).
Qed.



(** X20: with Python numbers too, a call that raises leaves the whole
    object as it was, also when it dies on the [OverflowError] of a
    quantity that has no float, and the history of an account has
    exactly one record per call that returned normally.  Both hold for
    [output/accounts.py] and for the ledger of [test_accounts.py]. *)
Theorem failed_call_is_atomic_in_binary64 :
  (∀ c self e,
     raised (PyAccounts.perform c self) = Some e →
     after (PyAccounts.perform c self) = self)
  ∧ (∀ name calls,
       length (PyAccounts.transactions (PyAccounts.run calls (PyAccounts.init name)))
       = PyAccounts.successes calls (PyAccounts.init name))
  ∧ (∀ c self e,
       raised (PyTestAccounts.perform c self) = Some e →
       after (PyTestAccounts.perform c self) = self)
  ∧ (∀ name calls,
       length (PyTestAccounts.transactions
                 (PyTestAccounts.run calls (PyTestAccounts.init name)))
       = PyTestAccounts.successes calls (PyTestAccounts.init name)).
Proof.
  split; [|split; [|split]].
  - apply PyAccountsFacts.py_perform_raised.
  - intros name calls. by rewrite PyAccountsFacts.py_run_length.
  - apply PyTestAccountsFacts.py_copy_perform_raised.
  - intros name calls. by rewrite PyTestAccountsFacts.py_copy_run_length.
Qed.

Lemma failed_call_is_atomic_in_binary64_witness :
  let funded := PyAccounts.run [PyDeposit 100] (PyAccounts.init "User") in
  after (PyAccounts.perform (PyBuy "TSLA" (10 ^ 400)) funded) = funded.
Proof.
  apply (proj1 failed_call_is_atomic_in_binary64 _ _
           (OverflowError "int too large to convert to float")).
  by vm_compute.
Defined.

(** X21: with Python numbers the cash of [output/accounts.py] is never
    below zero, and no position is empty, in any state reached from a new
    account: no rounding makes a withdrawal or a buy that was let through
    overdraw the account.  The cash can however stop being a number:
    after two deposits of 2^1023 it is [+inf], and the withdrawal of
    [+inf] then goes through and leaves a NaN. *)
Theorem cash_is_never_below_zero :
  (∀ name calls,
     let self := PyAccounts.run calls (PyAccounts.init name) in
     well_kept (PyAccounts.balance self) (PyAccounts.holdings self))
  ∧ (let rich :=
       PyAccounts.run [PyDeposit 0x1p+1023; PyDeposit 0x1p+1023] (PyAccounts.init "User") in
     PyAccounts.balance rich = infinity
     ∧ succeeded (PyAccounts.withdraw infinity rich) = true
     ∧ PyAccounts.balance (after (PyAccounts.withdraw infinity rich)) = nan).
Proof.
  split.
  - intros name calls self.
    apply PyAccountsFacts.py_run_invariant, PyAccountsFacts.py_init_invariant.
  - repeat split.
Qed.
